(** * conda/utils.py: path translation, shell dialects, shell quoting and
      the activation wrapper script

    A shallow embedding of [conda/utils.py] and the properties of it that
    the specification states.

    Conventions of the embedding.
    - The language is Python 3 (3.7 or later for [re.sub]): a [str] is a
      text of code points, and [repr] and the whitespace class of [re] are
      those of Python 3.
    - A Python [str] is a [string]; each [ascii] stands for one code point
      below 256, so [String.length] is Python's [len] and [String.get] is
      indexing.
    - A Python [dict] with string keys is a [gmap string _].
    - A call that may raise returns an [outcome].
    - What the module takes from the standard library and from the
      operating system ([os.path], [subprocess.list2cmdline], [sys.platform],
      the name the temporary file gets) is a field of a [host] record; the
      process environment and the files written are an explicit [world].
      Errors of the operating system at the creation of a file or at a write
      are not followed. *)

From Stdlib Require Import Strings.String Strings.Ascii List Bool Arith Lia.
From Stdlib Require Import ZArith DecimalString.
From stdpp Require Import gmap strings.
Import ListNotations.

Local Open Scope char_scope.
Local Open Scope string_scope.
Local Open Scope list_scope.
Local Open Scope bool_scope.
Local Open Scope nat_scope.
Local Open Scope stdpp_scope.

(** ** Python strings *)

Module Py.

(** Characters that a Rocq literal cannot hold or that read badly in one. *)
Definition DQ : ascii := "034".   (* the double quote *)
Definition SQ : ascii := "039".   (* the single quote *)
Definition NL : ascii := "010".   (* the line feed *)
Definition TAB : ascii := "009".
Definition NUL : ascii := "000".
Definition CR : ascii := "013".
Definition BS : ascii := "092".   (* the backslash *)

(** A string of one character. *)
Definition chr (c : ascii) : string := String c EmptyString.

(** [sub in s] *)
Fixpoint str_in (sub s : string) : bool :=
  String.prefix sub s ||
  match s with
  | EmptyString => false
  | String _ s' => str_in sub s'
  end.

(** [c in s] for one character, by recursion on the text; [str_in_chr]
    relates it to [str_in]. *)
Fixpoint has (c : ascii) (s : string) : bool :=
  match s with
  | EmptyString => false
  | String x s' => Ascii.eqb x c || has c s'
  end.

(** [s.count(c)] for a pattern [c] of one character *)
Fixpoint str_count (c : ascii) (s : string) : nat :=
  match s with
  | EmptyString => 0
  | String x s' => (if Ascii.eqb x c then 1 else 0) + str_count c s'
  end.

(** [s.replace(old, new)] for [old] and [new] of one character each *)
Fixpoint str_replace (old new : ascii) (s : string) : string :=
  match s with
  | EmptyString => EmptyString
  | String x s' =>
      String (if Ascii.eqb x old then new else x) (str_replace old new s')
  end.

(** [s[n:]] *)
Fixpoint str_from (n : nat) (s : string) : string :=
  match n, s with
  | O, _ => s
  | S _, EmptyString => EmptyString
  | S k, String _ s' => str_from k s'
  end.

(** [s[:n]] *)
Fixpoint str_upto (n : nat) (s : string) : string :=
  match n, s with
  | O, _ => EmptyString
  | S _, EmptyString => EmptyString
  | S k, String x s' => String x (str_upto k s')
  end.

(** [sep.join(l)] *)
Definition str_join (sep : string) (l : list string) : string :=
  String.concat sep l.

(** Exceptions the module can raise. *)
Inductive exn : Type :=
  | KeyError (key : string)
  | IndexError
  | TypeError.

Inductive outcome (A : Type) : Type :=
  | Returned (a : A)
  | Raised (e : exn).
Arguments Returned {A} a.
Arguments Raised {A} e.

Definition bind {A B : Type} (m : outcome A) (f : A -> outcome B) : outcome B :=
  match m with
  | Returned a => f a
  | Raised e => Raised e
  end.

(** [s[n]], which raises IndexError out of range *)
Definition str_item (s : string) (n : nat) : outcome ascii :=
  match String.get n s with
  | Some c => Returned c
  | None => Raised IndexError
  end.

(** *** [repr] of a [str] and of a [list] of [str]

    [repr] prefers single quotes and takes double quotes when the string
    holds a single quote and no double quote; it escapes the backslash, the
    chosen quote, tab, line feed and carriage return by name and every other
    code point that is not printable as a two digit hexadecimal escape.
    Below 256 the code points that are not printable are 0 to 31, 127 to 160
    and 173. *)

Definition hex_digit (n : nat) : ascii :=
  match n with
  | 0 => "0" | 1 => "1" | 2 => "2" | 3 => "3" | 4 => "4"
  | 5 => "5" | 6 => "6" | 7 => "7" | 8 => "8" | 9 => "9"
  | 10 => "a" | 11 => "b" | 12 => "c" | 13 => "d" | 14 => "e"
  | _ => "f"
  end.

Definition hex_escape (c : ascii) : string :=
  let n := nat_of_ascii c in
  String BS (String "x"
    (String (hex_digit (n / 16)) (String (hex_digit (n mod 16)) EmptyString))).

Definition printable (c : ascii) : bool :=
  let n := nat_of_ascii c in
  (32 <=? n) && negb ((127 <=? n) && (n <=? 160)) && negb (n =? 173).

Definition repr_char (quote c : ascii) : string :=
  if Ascii.eqb c quote || Ascii.eqb c BS then String BS (chr c)
  else if Ascii.eqb c TAB then String BS "t"
  else if Ascii.eqb c NL then String BS "n"
  else if Ascii.eqb c CR then String BS "r"
  else if printable c then chr c
  else hex_escape c.

Fixpoint repr_body (quote : ascii) (s : string) : string :=
  match s with
  | EmptyString => EmptyString
  | String c s' => repr_char quote c +:+ repr_body quote s'
  end.

Definition repr_str (s : string) : string :=
  let quote :=
    if str_in (chr SQ) s && negb (str_in (chr DQ) s) then DQ else SQ in
  chr quote +:+ repr_body quote s +:+ chr quote.

Definition repr_list (l : list string) : string :=
  "[" +:+ str_join ", " (map repr_str l) +:+ "]".

End Py.

Import Py.

(** ** The two regular expressions of [unix_path_to_win]

    The module calls [re.sub] with two patterns.  Each is embedded as a
    matcher: a function that, given the text from some position on, returns
    the length of the match that starts there.  Neither pattern looks behind
    or anchors, so the text from the position on decides the match. *)

Module Re.

(** [[a-zA-Z]] *)
Definition is_letter (c : ascii) : bool :=
  let n := nat_of_ascii c in
  (65 <=? n) && (n <=? 90) || (97 <=? n) && (n <=? 122).

(** The class of whitespace for a [str] pattern: the Unicode whitespace, which
    below 256 is 9 to 13, 28 to 32, 133 and 160. *)
Definition is_space (c : ascii) : bool :=
  let n := nat_of_ascii c in
  (9 <=? n) && (n <=? 13) || (28 <=? n) && (n <=? 32) || (n =? 133) || (n =? 160).

(** The characters the class at the end of [path_re] excludes: colon, star,
    question mark, double quote and the two angle brackets. *)
Definition reserved (c : ascii) : bool :=
  Ascii.eqb c ":" || Ascii.eqb c "*" || Ascii.eqb c "?" || Ascii.eqb c DQ
  || Ascii.eqb c "<" || Ascii.eqb c ">".

(** The negative lookahead of [path_re]: a colon or a whitespace that a slash
    follows. *)
Definition lookahead (s : string) : bool :=
  match s with
  | String c (String d _) => (Ascii.eqb c ":" || is_space c) && Ascii.eqb d "/"
  | _ => false
  end.

(** The starred group of [path_re].  It is greedy and nothing follows it in
    the pattern, so it matches the longest run. *)
Fixpoint rest_length (s : string) : nat :=
  match s with
  | EmptyString => 0
  | String c s' =>
      if negb (lookahead s) && negb (reserved c) then S (rest_length s') else 0
  end.

(** The capture group of [path_re]: slash, letter, slash, the starred group. *)
Definition match_drive (s : string) : option nat :=
  match s with
  | String a (String l (String b rest)) =>
      if Ascii.eqb a "/" && is_letter l && Ascii.eqb b "/"
      then Some (3 + rest_length rest) else None
  | _ => None
  end.

(** [root_prefix] is put in front of the capture group as it is, so it is
    read as pattern text.  The embedding covers the prefixes made of plain
    characters and of the alternation bar; a prefix with another special
    character of the pattern language is outside it. *)
Definition special (c : ascii) : bool :=
  Ascii.eqb c "." || Ascii.eqb c "^" || Ascii.eqb c "$" || Ascii.eqb c "*"
  || Ascii.eqb c "+" || Ascii.eqb c "?" || Ascii.eqb c "{" || Ascii.eqb c "}"
  || Ascii.eqb c "[" || Ascii.eqb c "]" || Ascii.eqb c BS || Ascii.eqb c "("
  || Ascii.eqb c ")".

Fixpoint plain (s : string) : bool :=
  match s with
  | EmptyString => true
  | String c s' => negb (special c) && negb (Ascii.eqb c "|") && plain s'
  end.

(** A prefix read as a pattern: the alternatives before the last bar, each a
    plain text, and the plain text between the last bar and the capture
    group. *)
Record path_re : Type := PathRe {
  alternatives : list string;
  before_group : string
}.

Fixpoint compile (root_prefix : string) : option path_re :=
  match root_prefix with
  | EmptyString => Some (PathRe [] EmptyString)
  | String c s' =>
      match compile s' with
      | None => None
      | Some (PathRe alts cur) =>
          if Ascii.eqb c "|" then Some (PathRe (EmptyString :: alts) cur)
          else if special c then None
          else
            match alts with
            | [] => Some (PathRe [] (String c cur))
            | a :: alts' => Some (PathRe (String c a :: alts') cur)
            end
      end
  end.

(** The match of the whole [path_re] at the head of [s]: the alternatives in
    order, the one that ends in the capture group last.  With [must_advance]
    an empty match is no match. *)
Definition match_path (p : path_re) (must_advance : bool) (s : string)
  : option nat :=
  match find (fun a => String.prefix a s
                       && negb (must_advance && String.eqb a EmptyString))
             (alternatives p) with
  | Some a => Some (String.length a)
  | None =>
      if String.prefix (before_group p) s then
        match match_drive (str_from (String.length (before_group p)) s) with
        | Some n => Some (String.length (before_group p) + n)
        | None => None
        end
      else None
  end.

(** The second pattern: colon, letter, colon, backslash.  Its matches are
    never empty. *)
Definition match_sep (must_advance : bool) (s : string) : option nat :=
  match s with
  | String a (String l (String c (String b _))) =>
      if Ascii.eqb a ":" && is_letter l && Ascii.eqb c ":" && Ascii.eqb b BS
      then Some 4 else None
  | _ => None
  end.

(** [re.sub(pattern, repl, s)] for a function [repl], as Python 3.7 and
    later do it: the text is scanned from the left; where the pattern
    matches, [repl] is called with the matched text and its result replaces
    it, and scanning goes on after the match; elsewhere the character is
    copied.  After an empty match the pattern is tried again at the same
    place for a match that is not empty.  [skip] counts the characters of
    the current match that are still to be passed over. *)
Fixpoint sub (m : bool -> string -> option nat) (repl : string -> outcome string)
    (skip : nat) (s : string) : outcome string :=
  let copy :=
    match s with
    | EmptyString => Returned EmptyString
    | String c s' => bind (sub m repl 0 s') (fun t => Returned (String c t))
    end in
  let replace (n : nat) :=
    bind (repl (str_upto (S n) s)) (fun r =>
      match s with
      | EmptyString => Returned r
      | String _ s' => bind (sub m repl n s') (fun t => Returned (r +:+ t))
      end) in
  match skip with
  | S k =>
      match s with
      | EmptyString => Returned EmptyString
      | String _ s' => sub m repl k s'
      end
  | O =>
      match m false s with
      | None => copy
      | Some (S n) => replace n
      | Some O =>
          bind (repl EmptyString) (fun r0 =>
            bind (match m true s with
                  | Some (S n) => replace n
                  | _ => copy
                  end)
              (fun t => Returned (r0 +:+ t)))
      end
  end.

End Re.

(** ** Path translation *)

(** [path_identity] *)
Definition path_identity (path : string) : string := path.

(** The inner function of [unix_path_to_win]: the drive letter is the
    character after the prefix and the slash, the rest follows the letter. *)
Definition _translation (root_prefix : string) (group : string) : outcome string :=
  bind (str_item group (String.length root_prefix + 1)) (fun drive =>
    Returned (chr drive +:+ ":" +:+
              str_replace "/" BS (str_from (String.length root_prefix + 2) group))).

(** The function of the second substitution. *)
Definition sep_repl (group : string) : outcome string :=
  bind (str_item group 1) (fun drive =>
    Returned (";" +:+ chr drive +:+ ":" +:+ chr BS)).

(** The test that opens [unix_path_to_win]: the path is taken for a Windows
    path already. *)
Definition already_windows (path : string) : bool :=
  (1 <? String.length path) &&
  (str_in ";" path ||
   (match String.get 1 path with Some c => Ascii.eqb c ":" | None => false end
    && (str_count ":" path =? 1))).

(** [unix_path_to_win(path, root_prefix)].  The result is [None] when
    [root_prefix] is outside the patterns the embedding covers (see
    [Re.special]) and the pattern is needed. *)
Definition unix_path_to_win (path : string) (root_prefix : string)
  : option (outcome string) :=
  if already_windows path then Some (Returned (str_replace "/" BS path))
  else
    match Re.compile root_prefix with
    | None => None
    | Some path_re =>
        Some (bind (Re.sub (Re.match_path path_re) (_translation root_prefix) 0 path)
                (fun translation => Re.sub Re.match_sep sep_repl 0 translation))
    end.

(** [cygwin_path_to_win] *)
Definition cygwin_path_to_win (path : string) : option (outcome string) :=
  unix_path_to_win path "/cygdrive".

(** ** The registry of shell dialects *)

(** The path converters a dialect can name.  [win_path_to_unix] is imported
    from [conda.common.path]; a dialect holds a reference to it only. *)
Inductive converter : Type :=
  | PathIdentity
  | UnixPathToWin
  | WinPathToUnix
  | CygwinPathToWin
  | WinPathToCygwin.

(** The values of a dialect: a string, a list of strings, a pair of strings
    or a path converter. *)
Inductive value : Type :=
  | Str (s : string)
  | Strs (l : list string)
  | Pair (a b : string)
  | Fn (f : converter).

(** [dict(base, key=value, ...)]: a copy of [base] with the keywords set in
    order. *)
Definition dict (base : gmap string value) (kwargs : list (string * value))
  : gmap string value :=
  fold_left (fun d kv => <[kv.1 := kv.2]> d) kwargs base.

(** A dictionary display with the shell names as keys. *)
Definition display (items : list (string * gmap string value))
  : gmap string (gmap string value) :=
  fold_left (fun d kv => <[kv.1 := kv.2]> d) items ∅.

Definition unix_shell_base : gmap string value :=
  dict ∅
    [ ("binpath", Str "/bin/");
      ("echo", Str "echo");
      ("env_script_suffix", Str ".sh");
      ("nul", Str "2>/dev/null");
      ("path_from", Fn PathIdentity);
      ("path_to", Fn PathIdentity);
      ("pathsep", Str ":");
      ("printdefaultenv", Str "echo $CONDA_DEFAULT_ENV");
      ("printpath", Str "echo $PATH");
      ("printps1", Str "echo $CONDA_PROMPT_MODIFIER");
      ("promptvar", Str "PS1");
      ("sep", Str "/");
      ("set_var", Str "export ");
      ("shell_args", Strs ["-l"; "-c"]);
      ("shell_suffix", Str EmptyString);
      ("slash_convert", Pair (chr BS) "/");
      ("source_setup", Str "source");
      ("test_echo_extra", Str EmptyString);
      ("var_format", Str "${}") ].

Definition msys2_shell_base : gmap string value :=
  dict unix_shell_base
    [ ("path_from", Fn UnixPathToWin);
      ("path_to", Fn WinPathToUnix);
      ("binpath", Str "/bin/");
      ("printpath",
       Str ("python -c " +:+ chr DQ +:+
            "import os; print(';'.join(os.environ['PATH'].split(';')[1:]))"
            +:+ chr DQ +:+ " | cygpath --path -f -")) ].

Definition cmd_exe : gmap string value :=
  dict ∅
    [ ("echo", Str "@echo");
      ("var_format", Str "%{}%");
      ("binpath", Str (chr BS +:+ "Scripts" +:+ chr BS));
      ("source_setup", Str "call");
      ("test_echo_extra", Str EmptyString);
      ("nul", Str "1>NUL 2>&1");
      ("set_var", Str "set ");
      ("shell_suffix", Str ".bat");
      ("env_script_suffix", Str ".bat");
      ("printps1", Str "@echo %PROMPT%");
      ("promptvar", Str "PROMPT");
      ("printdefaultenv",
       Str ("IF NOT " +:+ chr DQ +:+ "%CONDA_DEFAULT_ENV%" +:+ chr DQ +:+ " == "
            +:+ chr DQ +:+ chr DQ +:+ " (" +:+ chr NL +:+
            "echo %CONDA_DEFAULT_ENV% ) ELSE (" +:+ chr NL +:+
            "echo()"));
      ("printpath", Str "@echo %PATH%");
      ("exe", Str "cmd.exe");
      ("shell_args", Strs ["/d"; "/c"]);
      ("path_from", Fn PathIdentity);
      ("path_to", Fn PathIdentity);
      ("slash_convert", Pair "/" (chr BS));
      ("sep", Str (chr BS));
      ("pathsep", Str ";") ].

(** [shells], which the module builds once from [on_win]. *)
Definition shells (on_win : bool) : gmap string (gmap string value) :=
  if on_win then
    display
      [ ("cmd.exe", cmd_exe);
        ("cygwin",
         dict unix_shell_base
           [ ("exe", Str "bash.exe");
             ("binpath", Str "/Scripts/");
             ("path_from", Fn CygwinPathToWin);
             ("path_to", Fn WinPathToCygwin) ]);
        ("bash.exe", dict msys2_shell_base [ ("exe", Str "bash.exe") ]);
        ("bash", dict msys2_shell_base [ ("exe", Str "bash") ]);
        ("sh.exe", dict msys2_shell_base [ ("exe", Str "sh.exe") ]);
        ("zsh.exe", dict msys2_shell_base [ ("exe", Str "zsh.exe") ]);
        ("zsh", dict msys2_shell_base [ ("exe", Str "zsh") ]) ]
  else
    display
      [ ("bash", dict unix_shell_base [ ("exe", Str "bash") ]);
        ("dash",
         dict unix_shell_base [ ("exe", Str "dash"); ("source_setup", Str ".") ]);
        ("zsh", dict unix_shell_base [ ("exe", Str "zsh") ]);
        ("fish",
         dict unix_shell_base [ ("exe", Str "fish"); ("pathsep", Str " ") ]) ].

(** ** The host *)

(** What the module takes from outside of the repository.
    - [on_win]: the flag of [conda.common.compat].
    - [sys_platform]: [sys.platform].
    - [abspath], [join]: [os.path.abspath] and [os.path.join], the latter
      with its first argument and the list of the others.
    - [list2cmdline]: [subprocess.list2cmdline].
    - [temp_name]: the name of the temporary file that is created: the
      prefix, the characters that are drawn until the name is the name of no
      file, and the suffix.  The draw is part of the host, so the name is a
      function of the files that exist, of the prefix and of the suffix. *)
Record host : Type := Host {
  on_win : bool;
  sys_platform : string;
  abspath : string -> string;
  join : string -> list string -> string;
  list2cmdline : list string -> string;
  temp_name : gmap string (list string) -> string -> option string -> string
}.

(** The process environment ([os.environ]) and the files written.  A file is
    the list of the texts written to it, in order. *)
Record world : Type := World {
  environ : gmap string string;
  files : gmap string (list string)
}.

(** The text of a file. *)
Definition file_text (chunks : list string) : string :=
  String.concat EmptyString chunks.

(** ** Shell quoting *)

(** The body of the loop of [quote_for_shell]: the quote chosen for [arg],
    and [arg] between two of it. *)
Definition quote_of (arg : string) : string :=
  if str_in (chr DQ) arg then chr SQ
  else if str_in (chr SQ) arg then chr DQ
  else if negb (str_in " " arg) && negb (str_in (chr NL) arg) then EmptyString
  else chr DQ.

Definition quote_step (quoted : list string) (arg : string) : list string :=
  let quote := quote_of arg in
  quoted ++ [quote +:+ arg +:+ quote].

(** [quote_for_shell(arguments, shell)]; [shell] is [None] when the caller
    leaves it out. *)
Definition shell_or_default (h : host) (shell : option string) : string :=
  match shell with
  | None | Some EmptyString => if on_win h then "cmd.exe" else "bash"
  | Some s => s
  end.

Definition quote_for_shell (h : host) (arguments : list string)
    (shell : option string) : string :=
  let shell := shell_or_default h shell in
  if String.eqb shell "cmd.exe" then list2cmdline h arguments
  else str_join " " (fold_left quote_step arguments []).

(** ** The wrapper script *)

(** Modelled from the spec: the temporary file of
    [Utf8NamedTemporaryFile], which is not part of the module.  It is a text
    file encoded in UTF-8, created under a name of its own and kept when it
    is closed; [write] adds a text at the end.  The embedding follows the
    calls for which the operating system creates the file and takes the
    writes; an error of the operating system at one of them, which the
    specification has go to the caller, is not followed. *)
Definition write (fh : list string) (text : string) : list string :=
  fh ++ [text].

(** What [write] is handed: a text, or bytes. *)
Inductive data : Type :=
  | Text (s : string)
  | Bytes (b : string).

(** [s.encode('utf-8')] for code points below 256: one byte below 128, two
    bytes from 128 on. *)
Fixpoint encode_utf8 (s : string) : string :=
  match s with
  | EmptyString => EmptyString
  | String c s' =>
      let n := nat_of_ascii c in
      if n <? 128 then String c (encode_utf8 s')
      else String (ascii_of_nat (192 + n / 64))
             (String (ascii_of_nat (128 + n mod 64)) (encode_utf8 s'))
  end.

(** [fh.write(d)] on a text file: a text is added, bytes raise TypeError. *)
Definition write_any (fh : list string) (d : data) : outcome (list string) :=
  match d with
  | Text s => Returned (write fh s)
  | Bytes _ => Raised TypeError
  end.

(** The writes of a [with] block, in order.  The first one that raises ends
    the block; the file keeps what was written before it. *)
Fixpoint write_each (ds : list data) (fh : list string)
  : list string * option exn :=
  match ds with
  | [] => (fh, None)
  | d :: ds' =>
      match write_any fh d with
      | Returned fh' => write_each ds' fh'
      | Raised e => (fh, Some e)
      end
  end.

Definition close (w : world) (name : string) (fh : list string) : world :=
  World (environ w) (<[name := fh]> (files w)).

(** The test for the multiline mode. *)
Definition multiline (arguments : list string) : bool :=
  (length arguments =? 1) &&
  match arguments with
  | a :: _ => str_in (chr NL) a
  | [] => false
  end.

(** The line of the batch file that calls the activation. *)
Definition call_line (conda_bat prefix : string) : string :=
  "@CALL " +:+ chr DQ +:+ conda_bat +:+ chr DQ +:+ " activate " +:+ chr DQ +:+
  prefix +:+ chr DQ +:+ chr NL.

(** The last line of the batch file, which restores the code page. *)
Definition chcp_restore : string := "@chcp %CONDA_OLD_CHCP%>NUL" +:+ chr NL.

(** The line of the shell script that evaluates the hook. *)
Definition eval_line (hook_quoted : string) : string :=
  "eval " +:+ chr DQ +:+ "$(" +:+ hook_quoted +:+ ")" +:+ chr DQ +:+ chr NL.

(** The first two lines of the batch file, which save the code page and
    set it to UTF-8. *)
Definition chcp_save : string :=
  "@FOR /F " +:+ chr DQ +:+ "tokens=100" +:+ chr DQ +:+
  " %%F IN ('chcp') DO @SET CONDA_OLD_CHCP=%%F" +:+ chr NL.

Definition chcp_utf8 : string := "@chcp 65001>NUL" +:+ chr NL.

(** The writes of the batch file, in order, each with what it hands to
    [write]: the line that calls the activation is encoded first, so it is
    handed as bytes. *)
Definition bat_writes (h : host) (conda_bat prefix : string)
    (arguments : list string) : list data :=
  [ Text chcp_save;
    Text chcp_utf8;
    Bytes (encode_utf8 (call_line conda_bat prefix));
    Text (if multiline arguments then hd EmptyString arguments +:+ chr NL
          else "@" +:+ quote_for_shell h arguments None +:+ chr NL);
    Text chcp_restore ].

(** The lines of the shell script, written in order. *)
Definition sh_script (h : host) (conda_exe : list string) (prefix : string)
    (debug_wrapper_scripts : bool) (arguments : list string) : list string :=
  let fh := [] in
  let hook_quoted := quote_for_shell h (conda_exe ++ ["shell.posix"; "hook"]) None in
  let fh :=
    if debug_wrapper_scripts then
      let fh := write fh (">&2 echo '*** environment before ***'" +:+ chr NL +:+
                          ">&2 env" +:+ chr NL) in
      write fh (">&2 echo " +:+ chr DQ +:+ "$(" +:+ hook_quoted +:+ ")" +:+
                chr DQ +:+ chr NL)
    else fh in
  let fh := write fh (eval_line hook_quoted) in
  let fh := write fh ("conda activate " +:+ quote_for_shell h [prefix] None +:+
                      chr NL) in
  let fh :=
    if debug_wrapper_scripts then
      write fh (">&2 echo '*** environment after ***'" +:+ chr NL +:+
                ">&2 env" +:+ chr NL)
    else fh in
  if multiline arguments then
    write fh (str_join " " arguments +:+ chr NL)
  else if length arguments =? 1 then
    write fh (repr_list arguments +:+ chr NL)
  else
    write fh (quote_for_shell h arguments None +:+ chr NL).

(** [wrap_subprocess_call].  Its first parameter has the name of the flag of
    the host and hides it in the body; the calls of [quote_for_shell] still
    read the flag of the host.  The file is created when the [with] block is
    entered and is kept when the block is left, also when a write raises;
    the name of the script and the command vector are set after the
    writes.  Errors of the operating system at the creation of the file or
    at a write are not followed (see [write]). *)
Definition wrap_subprocess_call (h : host) (w : world)
    (on_win_arg : bool) (root_prefix prefix : string)
    (dev_mode debug_wrapper_scripts : bool) (arguments : list string)
  : outcome (string * list string) * world :=
  let tmp_prefix := abspath h (join h prefix [".tmp"]) in
  if on_win_arg then
    match environ w !! "COMSPEC" with
    | None => (Raised (KeyError "COMSPEC"), w)
    | Some comspec =>
        let conda_bat :=
          default (abspath h (join h root_prefix ["condabin"; "conda.bat"]))
                  (environ w !! "CONDA_BAT") in
        let name := temp_name h (files w) tmp_prefix (Some ".bat") in
        let (fh, raised) := write_each (bat_writes h conda_bat prefix arguments) [] in
        let w := close w name fh in
        match raised with
        | Some e => (Raised e, w)
        | None =>
            let script_caller := name in
            (Returned (script_caller, [comspec; "/d"; "/c"; script_caller]), w)
        end
    end
  else
    let shell_path := if str_in "bsd" (sys_platform h) then "sh" else "bash" in
    let conda_exe :=
      if dev_mode then [abspath h (join h root_prefix ["bin"; "python"]); "-m"; "conda"]
      else [default (abspath h (join h root_prefix ["bin"; "conda"]))
                    (environ w !! "CONDA_EXE")] in
    let script_caller := temp_name h (files w) tmp_prefix None in
    let w := close w script_caller
               (sh_script h conda_exe prefix debug_wrapper_scripts arguments) in
    (Returned (script_caller, [shell_path; "-x"; script_caller]), w).

(** ** The rules the specification states *)

(** The priority rule of the specification for the quote of one argument of
    a POSIX shell, as a relation between the argument and the quote. *)
Inductive quote_rule (arg : string) : string -> Prop :=
  | quote_single :
      str_in (chr DQ) arg = true ->
      quote_rule arg (chr SQ)
  | quote_double :
      str_in (chr DQ) arg = false ->
      str_in (chr SQ) arg = true ->
      quote_rule arg (chr DQ)
  | quote_none :
      str_in (chr DQ) arg = false ->
      str_in (chr SQ) arg = false ->
      str_in " " arg = false ->
      str_in (chr NL) arg = false ->
      quote_rule arg EmptyString
  | quote_else :
      str_in (chr DQ) arg = false ->
      str_in (chr SQ) arg = false ->
      str_in " " arg = true \/ str_in (chr NL) arg = true ->
      quote_rule arg (chr DQ).

(** An argument between two copies of its quote. *)
Definition quoted_arg (quote arg : string) : string := quote +:+ arg +:+ quote.

(** The test of the specification for a path that looks like a Windows path:
    it holds a semicolon, or its second character is a colon and it holds
    one colon. *)
Definition looks_windows (path : string) : Prop :=
  str_in ";" path = true \/
  (String.get 1 path = Some ":"%char /\ str_count ":" path = 1).

(** The command section of a script, the text written for the command of
    the caller: the last text written to a shell script, and the one before
    the line that restores the code page in a batch file. *)
Definition command_section (on_win_arg : bool) (script : list string)
  : option string :=
  if on_win_arg then last (removelast script) else last script.

(** Modelled from the spec: the word splitting of a POSIX shell, for a line
    that is a list of words and nothing else.  Blanks (space, tab) outside
    of quotes end a word, and so does the line feed that ends the line; a
    single quote keeps every character
    up to the next single quote; a double quote keeps every character up to
    the next double quote, where a backslash before a dollar, a backquote, a
    double quote, a backslash or a line feed escapes it; outside of quotes a
    backslash keeps the next character and removes a line feed.  The result
    is [None] when a quote is left open, when text follows a line feed
    outside of quotes (a second command), and when the line holds, where the
    shell would read it, a character that makes it more than a list of plain
    words: outside of quotes one of the characters that the Shell Command
    Language asks to quote (bar, ampersand, semicolon, angle brackets,
    parentheses, dollar, backquote, star, question mark, opening square
    bracket, hash, tilde, equals sign, percent sign) or, for bash, a brace,
    an exclamation mark or a caret; inside double quotes a dollar, a
    backquote or an exclamation mark. *)
Module Sh.

Inductive mode : Type :=
  | Plain
  | PlainEscaped
  | Single
  | Double
  | DoubleEscaped.

Definition blank (c : ascii) : bool :=
  Ascii.eqb c " " || Ascii.eqb c TAB.

(** The characters with a meaning of their own outside of quotes. *)
Definition operator (c : ascii) : bool :=
  has c "|&;<>()$`*?[#~=%{}!^".

(** The characters with a meaning of their own inside double quotes. *)
Definition expands (c : ascii) : bool :=
  has c "$`!".

(** The word in progress with one more character; [None] is no word yet. *)
Definition push (cur : option string) (c : ascii) : option string :=
  Some (default EmptyString cur +:+ chr c).

(** A quote opens a word even if nothing follows inside. *)
Definition open_word (cur : option string) : option string :=
  Some (default EmptyString cur).

Definition flush (cur : option string) (rest : list string) : list string :=
  match cur with
  | Some w => w :: rest
  | None => rest
  end.

Fixpoint split (m : mode) (cur : option string) (s : string)
  : option (list string) :=
  match s with
  | EmptyString =>
      match m with
      | Plain => Some (flush cur [])
      | PlainEscaped => Some (flush (push cur BS) [])
      | _ => None
      end
  | String c s' =>
      match m with
      | Plain =>
          if Ascii.eqb c NL then
            match s' with
            | EmptyString => Some (flush cur [])
            | _ => None
            end
          else if blank c then option_map (flush cur) (split Plain None s')
          else if Ascii.eqb c SQ then split Single (open_word cur) s'
          else if Ascii.eqb c DQ then split Double (open_word cur) s'
          else if Ascii.eqb c BS then split PlainEscaped cur s'
          else if operator c then None
          else split Plain (push cur c) s'
      | PlainEscaped =>
          if Ascii.eqb c NL then split Plain cur s'
          else split Plain (push cur c) s'
      | Single =>
          if Ascii.eqb c SQ then split Plain cur s'
          else split Single (push cur c) s'
      | Double =>
          if Ascii.eqb c DQ then split Plain cur s'
          else if Ascii.eqb c BS then split DoubleEscaped cur s'
          else if expands c then None
          else split Double (push cur c) s'
      | DoubleEscaped =>
          if Ascii.eqb c NL then split Double cur s'
          else if Ascii.eqb c "$" || Ascii.eqb c "`" || Ascii.eqb c DQ
                  || Ascii.eqb c BS
          then split Double (push cur c) s'
          else split Double (push (push cur BS) c) s'
      end
  end.

Definition words (s : string) : option (list string) := split Plain None s.

End Sh.

(** No character of [s] satisfies [p]. *)
Fixpoint none_of (p : ascii -> bool) (s : string) : bool :=
  match s with
  | EmptyString => true
  | String c s' => negb (p c) && none_of p s'
  end.

(** The arguments that the quoting of [quote_for_shell] carries through the
    word splitting.  None holds the character of code 0, which a script
    cannot hold, or a backslash.  An argument with a double quote goes
    between single quotes and must hold no single quote.  An argument
    without it that holds a single quote, a space or a line feed goes
    between double quotes and must hold none of the characters that expand
    there.  Any other argument gets no quotes and must not be empty and
    hold no tab and none of the characters with a meaning of their own. *)
Definition carried (arg : string) : bool :=
  negb (has NUL arg) && negb (has BS arg)
  && (if has DQ arg then negb (has SQ arg)
      else if has SQ arg || has " " arg || has NL arg
      then none_of Sh.expands arg
      else negb (String.eqb arg EmptyString) && negb (has TAB arg)
           && none_of Sh.operator arg).

(** ** Two hosts to run the embedding on *)

(** [posixpath.join] *)
Definition posix_join (a : string) (p : list string) : string :=
  fold_left
    (fun path b =>
       if String.prefix "/" b then b
       else if String.eqb path EmptyString
               || Ascii.eqb (default "/"%char (String.get (String.length path - 1) path)) "/"
       then path +:+ b
       else path +:+ "/" +:+ b)
    p a.

(** [subprocess.list2cmdline], as the standard library has it: arguments
    joined by spaces; an argument with a space or a tab, or an empty one,
    between double quotes; a double quote after a backslash, with the
    backslashes before it doubled; the backslashes at the end of a quoted
    argument doubled. *)
Fixpoint str_repeat (c : ascii) (n : nat) : string :=
  match n with
  | O => EmptyString
  | S k => String c (str_repeat c k)
  end.

Fixpoint cmdline_chars (backslashes : nat) (needquote : bool) (arg : string)
  : string :=
  match arg with
  | EmptyString =>
      str_repeat BS backslashes
      +:+ (if needquote then str_repeat BS backslashes +:+ chr DQ
           else EmptyString)
  | String c arg' =>
      if Ascii.eqb c BS then cmdline_chars (S backslashes) needquote arg'
      else if Ascii.eqb c DQ then
        str_repeat BS (backslashes * 2) +:+ chr BS +:+ chr DQ
        +:+ cmdline_chars 0 needquote arg'
      else
        str_repeat BS backslashes +:+ chr c +:+ cmdline_chars 0 needquote arg'
  end.

Definition cmdline_arg (arg : string) : string :=
  let needquote := has " " arg || has TAB arg || String.eqb arg EmptyString in
  (if needquote then chr DQ else EmptyString) +:+ cmdline_chars 0 needquote arg.

Definition cmdline (seq : list string) : string :=
  str_join " " (map cmdline_arg seq).

(** A Linux host, for paths that are absolute and normal already, which
    [abspath] leaves as they are.  It draws the same eight characters for
    the name of a temporary file at every call. *)
Definition linux : host :=
  Host false "linux" (fun path => path) posix_join cmdline
       (fun _ prefix suffix => prefix +:+ "k3x9q7a_" +:+ default EmptyString suffix).

(** A Windows host, for paths with a drive that are absolute and have no
    dot part and no doubled separator, of which [abspath] turns the slashes
    into backslashes, and for parts without a drive and without a separator
    at either end, which [join] puts after a backslash each. *)
Definition windows : host :=
  Host true "win32" (str_replace "/" BS)
       (fun a p => str_join (chr BS) (a :: p)) cmdline
       (fun _ prefix suffix => prefix +:+ "k3x9q7a_" +:+ default EmptyString suffix).

(** A script body of several lines, and a Windows environment that sets
    COMSPEC and nothing else, with no file written yet. *)
Definition body_of_lines : string :=
  chr NL +:+ "a" +:+ chr NL +:+ "b" +:+ chr NL.

Definition comspec_only : world := World {[ "COMSPEC" := "cmd.exe" ]} ∅.

Definition empty_world : world := World ∅ ∅.

(** ** Drive paths and lists of them *)

(** The text after the drive of a path that the capture group of [path_re]
    takes whole and that leaves the test for a Windows path alone: no
    character that the class excludes, no semicolon, and no whitespace right
    before a slash. *)
Fixpoint clean (r : string) : bool :=
  match r with
  | EmptyString => true
  | String c r' =>
      negb (Re.reserved c) && negb (Ascii.eqb c ";")
      && negb (Re.is_space c && String.prefix "/" r')
      && clean r'
  end.

(** A path on drive [l] in the POSIX style, under [root_prefix], and the
    same path in the Windows style. *)
Definition unix_drive_path (root_prefix : string) (item : ascii * string)
  : string :=
  root_prefix +:+ "/" +:+ chr item.1 +:+ "/" +:+ item.2.

Definition win_drive_path (item : ascii * string) : string :=
  chr item.1 +:+ ":" +:+ chr BS +:+ str_replace "/" BS item.2.

Definition drive_item (item : ascii * string) : bool :=
  Re.is_letter item.1 && clean item.2.

(** What follows a drive path in a list: nothing, or the colon before the
    next one. *)
Definition follows (rest : string) : Prop :=
  rest = EmptyString \/ exists rest', rest = String ":" rest'.

(** The texts of [l], each after a copy of [sep]: what [sep.join] puts
    after the first text. *)
Fixpoint tail_join (sep : string) (l : list string) : string :=
  match l with
  | [] => EmptyString
  | x :: l' => sep +:+ x +:+ tail_join sep l'
  end.

(** ** Streams of lines *)

(** [s.split(sep)] for [sep] of one character: the texts between the
    separators, one more than there are separators. *)
Fixpoint str_split (sep : ascii) (s : string) : list string :=
  match s with
  | EmptyString => [EmptyString]
  | String c s' =>
      if Ascii.eqb c sep then EmptyString :: str_split sep s'
      else
        match str_split sep s' with
        | x :: l => String c x :: l
        | [] => [String c EmptyString]
        end
  end.

(** The calls a generator expression makes, in order; the first exception
    ends them. *)
Fixpoint each {A B : Type} (f : A -> outcome B) (l : list A) : outcome (list B) :=
  match l with
  | [] => Returned []
  | x :: l' =>
      bind (f x) (fun y => bind (each f l') (fun ys => Returned (y :: ys)))
  end.

(** [translate_stream(stream, translator)] *)
Definition translate_stream (stream : string)
    (translator : string -> outcome string) : outcome string :=
  bind (each translator (str_split NL stream))
       (fun lines => Returned (str_join (chr NL) lines)).

(** A translator that raises on a line of fewer than two characters: it
    returns the second character. *)
Definition second_char (line : string) : outcome string :=
  bind (str_item line 1) (fun c => Returned (chr c)).

(** ** The shape of a dialect *)

(** The keys of a dialect. *)
Definition dialect_keys : list string :=
  [ "binpath"; "echo"; "env_script_suffix"; "exe"; "nul"; "path_from";
    "path_to"; "pathsep"; "printdefaultenv"; "printpath"; "printps1";
    "promptvar"; "sep"; "set_var"; "shell_args"; "shell_suffix";
    "slash_convert"; "source_setup"; "test_echo_extra"; "var_format" ].

(** The names of the dialects of a host. *)
Definition dialect_names (on_win : bool) : list string :=
  if on_win
  then ["cmd.exe"; "cygwin"; "bash.exe"; "bash"; "sh.exe"; "zsh.exe"; "zsh"]
  else ["bash"; "dash"; "zsh"; "fish"].

(** An environment with COMSPEC and with the two overrides, with no file
    written yet. *)
Definition with_overrides : world :=
  World {[ "COMSPEC" := "cmd.exe"; "CONDA_BAT" := "D:/c.bat";
           "CONDA_EXE" := "/usr/bin/conda" ]} ∅.

(** The line of the shell script that activates the environment. *)
Definition activate_line (h : host) (prefix : string) : string :=
  "conda activate " +:+ quote_for_shell h [prefix] None +:+ chr NL.

(** An argument that [quote_for_shell] gives no quotes: no quote of either
    kind, no space and no line feed in it. *)
Definition bare (arg : string) : bool :=
  negb (has DQ arg) && negb (has SQ arg) && negb (has " " arg)
  && negb (has NL arg).

(** ** Sizes for the reader *)

(** [human_bytes(n)] for an integer [n].  The quotients are floats; for [n]
    below two to the 53 each of them is [n] over a power of two and so is
    exact, and [round] and the formats round the exact value to the nearest,
    ties to even.  At and above two to the 53 the quotient may be rounded,
    which the embedding does not follow: the result is [None] there. *)

(** The nearest integer to [num / den], ties to the even one, for a positive
    [den]: [round] on an exact float. *)
Definition round_half_even (num den : Z) : Z :=
  let q := (num / den)%Z in
  let r := (num mod den)%Z in
  if (2 * r <? den)%Z then q
  else if (den <? 2 * r)%Z then (q + 1)%Z
  else if Z.even q then q else (q + 1)%Z.

(** The format of an integer in decimal. *)
Definition dec (n : Z) : string := NilZero.string_of_int (Z.to_int n).

(** [s] with zeros in front up to [width] characters. *)
Definition zero_pad (width : nat) (s : string) : string :=
  String.concat EmptyString (repeat "0" (width - String.length s)) +:+ s.

(** The format with [digits] decimals of the exact [num / den], not
    negative. *)
Definition fixed (digits : nat) (num den : Z) : string :=
  let scale := (10 ^ Z.of_nat digits)%Z in
  let q := round_half_even (num * scale) den in
  dec (q / scale) +:+ "." +:+ zero_pad digits (dec (q mod scale)).

Definition human_bytes (n : Z) : option string :=
  if (n <? 1024)%Z then Some (dec n +:+ " B")
  else if (2 ^ 53 <=? n)%Z then None
  else if (n <? 1024 * 1024)%Z then Some (dec (round_half_even n 1024) +:+ " KB")
  else if (n <? 1024 * 1024 * 1024)%Z
       then Some (fixed 1 n (1024 * 1024) +:+ " MB")
  else Some (fixed 2 n (1024 * 1024 * 1024) +:+ " GB").

(** * Properties *)

(** ** Strings *)

Section StringFacts.

Lemma prefix_chr c x s : String.prefix (chr c) (String x s) = Ascii.eqb x c.
Proof.
  unfold chr. simpl. destruct (ascii_dec c x) as [->|Hne].
  - rewrite Ascii.eqb_refl. now destruct s.
  - symmetry. apply Ascii.eqb_neq. congruence.
Qed.

Lemma str_in_chr c s : str_in (chr c) s = has c s.
Proof.
  induction s as [|x s IH].
  - reflexivity.
  - change (str_in (chr c) (String x s))
      with (String.prefix (chr c) (String x s) || str_in (chr c) s).
    now rewrite prefix_chr, IH.
Qed.

Lemma str_replace_length old new s :
  String.length (str_replace old new s) = String.length s.
Proof. induction s; simpl; congruence. Qed.

Lemma has_replace c old new s :
  c <> old -> c <> new -> has c (str_replace old new s) = has c s.
Proof.
  intros Ho Hn. induction s as [|x s IH]; simpl; [reflexivity|].
  rewrite IH. f_equal.
  destruct (Ascii.eqb_spec x old) as [->|Hx]; [|reflexivity].
  assert (Ascii.eqb new c = false) as -> by (apply Ascii.eqb_neq; congruence).
  symmetry. apply Ascii.eqb_neq. congruence.
Qed.

Lemma count_replace c old new s :
  c <> old -> c <> new -> str_count c (str_replace old new s) = str_count c s.
Proof.
  intros Ho Hn. induction s as [|x s IH]; simpl; [reflexivity|].
  rewrite IH. f_equal.
  destruct (Ascii.eqb_spec x old) as [->|Hx]; [|reflexivity].
  assert (Ascii.eqb new c = false) as -> by (apply Ascii.eqb_neq; congruence).
  assert (Ascii.eqb old c = false) as -> by (apply Ascii.eqb_neq; congruence).
  reflexivity.
Qed.

Lemma get_replace old new n s :
  String.get n (str_replace old new s)
  = option_map (fun x => if Ascii.eqb x old then new else x) (String.get n s).
Proof.
  revert n. induction s as [|x s IH]; intros [|n]; simpl; try reflexivity.
  apply IH.
Qed.

Lemma str_replace_twice old new s :
  old <> new ->
  str_replace old new (str_replace old new s) = str_replace old new s.
Proof.
  intros Hne. induction s as [|x s IH]; simpl; [reflexivity|].
  rewrite IH. f_equal.
  destruct (Ascii.eqb_spec x old) as [->|Hx].
  - assert (Ascii.eqb new old = false) as -> by (apply Ascii.eqb_neq; congruence).
    reflexivity.
  - apply Ascii.eqb_neq in Hx. now rewrite Hx.
Qed.

Lemma str_from_length n s :
  String.length (str_from n s) = String.length s - n.
Proof.
  revert n. induction s as [|x s IH]; intros [|n]; simpl; try reflexivity.
  apply IH.
Qed.

Lemma str_from_from n k s : str_from n (str_from k s) = str_from (k + n) s.
Proof.
  revert k. induction s as [|x s IH]; intros [|k]; simpl; try reflexivity.
  - now destruct n.
  - apply IH.
Qed.

End StringFacts.

(** ** Shell quoting *)

Section Quoting.

Lemma fold_quote_step arguments quoted :
  fold_left quote_step arguments quoted
  = quoted ++ map (fun arg => quoted_arg (quote_of arg) arg) arguments.
Proof.
  revert quoted. induction arguments as [|arg arguments IH]; intros quoted; simpl.
  - now rewrite app_nil_r.
  - rewrite IH. unfold quote_step, quoted_arg. now rewrite <- app_assoc.
Qed.

Lemma quote_of_rule arg : quote_rule arg (quote_of arg).
Proof.
  unfold quote_of.
  destruct (str_in (chr DQ) arg) eqn:Hd; [now constructor|].
  destruct (str_in (chr SQ) arg) eqn:Hs; [now constructor|].
  destruct (str_in " " arg) eqn:Hsp; simpl.
  - apply quote_else; auto.
  - destruct (str_in (chr NL) arg) eqn:Hn; simpl.
    + apply quote_else; auto.
    + now apply quote_none.
Qed.

Lemma quote_rule_unique arg q1 q2 :
  quote_rule arg q1 -> quote_rule arg q2 -> q1 = q2.
Proof.
  intros H1 H2.
  destruct H1; destruct H2; try reflexivity; try congruence;
    repeat match goal with H : _ \/ _ |- _ => destruct H end; congruence.
Qed.

Lemma quote_rules arguments :
  Forall2 quote_rule arguments (map quote_of arguments).
Proof.
  induction arguments; simpl; constructor; auto using quote_of_rule.
Qed.

Lemma zip_quotes arguments :
  zip_with quoted_arg (map quote_of arguments) arguments
  = map (fun arg => quoted_arg (quote_of arg) arg) arguments.
Proof. induction arguments; simpl; congruence. Qed.

Lemma quote_for_shell_not_cmd h arguments shell :
  shell_or_default h shell <> "cmd.exe" ->
  quote_for_shell h arguments shell
  = str_join " " (map (fun arg => quoted_arg (quote_of arg) arg) arguments).
Proof.
  intros Hsh. unfold quote_for_shell.
  apply String.eqb_neq in Hsh. rewrite Hsh.
  now rewrite fold_quote_step.
Qed.

End Quoting.

(** C1. For a POSIX shell, that is when the shell asked for, or the default
    of the host when none is, is not cmd.exe, [quote_for_shell] returns the
    arguments joined by spaces, each between two copies of its quote, and
    the quotes follow the priority rule of the specification: a single quote
    when the argument holds a double quote; else a double quote when it
    holds a single quote; else nothing when it holds no space and no line
    feed; else a double quote.  The example of the specification comes out
    as stated: the first argument in double quotes, the second in single
    quotes. *)
Theorem quote_for_shell_posix (h : host) (arguments : list string)
    (shell : option string) :
  shell_or_default h shell <> "cmd.exe" ->
  (exists quotes : list string,
      Forall2 quote_rule arguments quotes /\
      quote_for_shell h arguments shell
      = str_join " " (zip_with quoted_arg quotes arguments)) /\
  quote_for_shell h ["a b"; "c" +:+ chr DQ +:+ "d"] shell
  = chr DQ +:+ "a b" +:+ chr DQ +:+ " " +:+ chr SQ +:+ "c" +:+ chr DQ +:+ "d" +:+ chr SQ.
Proof.
  intros Hsh. split.
  - exists (map quote_of arguments). split; [apply quote_rules|].
    rewrite zip_quotes. now apply quote_for_shell_not_cmd.
  - now rewrite quote_for_shell_not_cmd.
Qed.

Lemma quote_for_shell_posix_witness :
  shell_or_default linux None <> "cmd.exe" /\
  ((exists quotes : list string,
      Forall2 quote_rule ["python"; "-c"; "print 1"] quotes /\
      quote_for_shell linux ["python"; "-c"; "print 1"] None
      = str_join " " (zip_with quoted_arg quotes ["python"; "-c"; "print 1"])) /\
   quote_for_shell linux ["a b"; "c" +:+ chr DQ +:+ "d"] None
   = chr DQ +:+ "a b" +:+ chr DQ +:+ " " +:+ chr SQ +:+ "c" +:+ chr DQ +:+ "d" +:+ chr SQ).
Proof.
  assert (Hsh : shell_or_default linux None <> "cmd.exe") by (simpl; discriminate).
  split; [exact Hsh|].
  exact (quote_for_shell_posix linux ["python"; "-c"; "print 1"] None Hsh).
Defined.

(** ** Path translation *)

Section PathTranslation.

(** A pattern that matches nowhere in [s] leaves [s] as it is. *)
Lemma sub_no_match m repl s :
  (forall k, m false (str_from k s) = None) ->
  Re.sub m repl 0 s = Returned s.
Proof.
  induction s as [|c s IH]; intros Hm; pose proof (Hm 0) as H0; simpl in H0.
  - simpl. now rewrite H0.
  - simpl. rewrite H0. rewrite IH; [reflexivity|].
    intros k. exact (Hm (S k)).
Qed.

Lemma match_drive_length s n : Re.match_drive s = Some n -> 3 <= String.length s.
Proof.
  destruct s as [|a [|b [|c s]]]; simpl; try discriminate.
  intros _. lia.
Qed.

Lemma match_sep_length adv s n :
  Re.match_sep adv s = Some n -> 4 <= String.length s.
Proof.
  destruct s as [|a [|b [|c [|d s]]]]; simpl; try discriminate.
  intros _. lia.
Qed.

Lemma compile_plain root_prefix :
  Re.plain root_prefix = true ->
  Re.compile root_prefix = Some (Re.PathRe [] root_prefix).
Proof.
  induction root_prefix as [|c s IH]; simpl; [reflexivity|].
  intros H. apply andb_true_iff in H as [H Hs].
  apply andb_true_iff in H as [Hc Hbar].
  rewrite (IH Hs).
  apply negb_true_iff in Hc, Hbar. now rewrite Hbar, Hc.
Qed.

Lemma match_path_plain_length root_prefix adv s n :
  Re.match_path (Re.PathRe [] root_prefix) adv s = Some n ->
  3 <= String.length s.
Proof.
  unfold Re.match_path. simpl.
  destruct (String.prefix root_prefix s); [|discriminate].
  destruct (Re.match_drive _) eqn:Hd; [|discriminate].
  intros _. apply match_drive_length in Hd.
  rewrite str_from_length in Hd. lia.
Qed.

Lemma already_windows_short path :
  String.length path <= 1 -> already_windows path = false.
Proof.
  intros H. unfold already_windows.
  assert ((1 <? String.length path) = false) as -> by (apply Nat.ltb_ge; lia).
  reflexivity.
Qed.

(** Texts too short for either pattern pass through both substitutions. *)
Lemma unix_path_to_win_short path root_prefix :
  Re.plain root_prefix = true ->
  String.length path < 3 ->
  already_windows path = false ->
  unix_path_to_win path root_prefix = Some (Returned path).
Proof.
  intros Hp Hlen Hw. unfold unix_path_to_win.
  rewrite Hw, (compile_plain _ Hp).
  rewrite sub_no_match.
  - simpl. rewrite sub_no_match; [reflexivity|].
    intros k. destruct (Re.match_sep _ _) eqn:Hm; [|reflexivity].
    apply match_sep_length in Hm. rewrite str_from_length in Hm. lia.
  - intros k. destruct (Re.match_path _ _ _) eqn:Hm; [|reflexivity].
    apply match_path_plain_length in Hm. rewrite str_from_length in Hm. lia.
Qed.

Lemma str_in_semicolon s : str_in ";" s = has ";" s.
Proof. exact (str_in_chr ";" s). Qed.

Lemma already_windows_replace path :
  already_windows (str_replace "/" BS path) = already_windows path.
Proof.
  unfold already_windows.
  rewrite str_replace_length, !str_in_semicolon.
  rewrite has_replace by discriminate.
  rewrite count_replace by discriminate.
  rewrite get_replace.
  destruct (String.get 1 path) as [c|]; simpl; [|reflexivity].
  destruct (Ascii.eqb_spec c "/") as [->|Hc]; reflexivity.
Qed.

Lemma already_windows_looks path :
  1 < String.length path -> looks_windows path -> already_windows path = true.
Proof.
  intros Hlen Hw. unfold already_windows.
  assert ((1 <? String.length path) = true) as -> by (apply Nat.ltb_lt; lia).
  destruct Hw as [Hs|[Hg Hc]]; simpl.
  - now rewrite Hs.
  - rewrite Hg, Hc. simpl. apply orb_true_r.
Qed.

Lemma looks_windows_short path :
  String.length path <= 1 -> looks_windows path -> path = ";".
Proof.
  intros Hlen [Hs|[Hg _]].
  - rewrite str_in_semicolon in Hs.
    destruct path as [|c [|d path]]; simpl in *; try discriminate; try lia.
    rewrite orb_false_r in Hs. apply Ascii.eqb_eq in Hs. now subst.
  - destruct path as [|c [|d path]]; simpl in *; try discriminate; lia.
Qed.

Lemma unix_path_to_win_windows path root_prefix :
  already_windows path = true ->
  unix_path_to_win path root_prefix = Some (Returned (str_replace "/" BS path)).
Proof. intros H. unfold unix_path_to_win. now rewrite H. Qed.

End PathTranslation.

(** C4 as the code has it.  The drive letter is copied from the path as it
    is: the lower case letter of the example stays in lower case, and an
    upper case letter stays in upper case. *)
Theorem unix_path_to_win_example :
  unix_path_to_win "/c/Users/x" EmptyString
  = Some (Returned ("c:" +:+ chr BS +:+ "Users" +:+ chr BS +:+ "x")) /\
  unix_path_to_win "/C/Users/x" EmptyString
  = Some (Returned ("C:" +:+ chr BS +:+ "Users" +:+ chr BS +:+ "x")).
Proof. split; reflexivity. Qed.

(** C4 as the specification states it fails: the result for the path of the
    example is not the text with the upper case drive letter. *)
Lemma unix_path_to_win_example_not_upper :
  unix_path_to_win "/c/Users/x" EmptyString
  <> Some (Returned ("C:" +:+ chr BS +:+ "Users" +:+ chr BS +:+ "x")).
Proof. vm_compute. discriminate. Qed.

(** C5. On a path that looks like a Windows path (it holds a semicolon, or
    its second character is a colon and it holds one colon),
    [unix_path_to_win] with the default prefix returns a text of the same
    length that has a backslash where the path has a slash and the
    character of the path everywhere else, and applied to that result it
    returns the same result again. *)
Theorem unix_path_to_win_idempotent (path : string) :
  looks_windows path ->
  exists result : string,
    unix_path_to_win path EmptyString = Some (Returned result) /\
    String.length result = String.length path /\
    (forall n,
        String.get n result
        = option_map (fun c => if Ascii.eqb c "/" then BS else c)
                     (String.get n path)) /\
    unix_path_to_win result EmptyString = Some (Returned result).
Proof.
  intros Hw. exists (str_replace "/" BS path).
  assert (H : unix_path_to_win path EmptyString
              = Some (Returned (str_replace "/" BS path)) /\
              unix_path_to_win (str_replace "/" BS path) EmptyString
              = unix_path_to_win path EmptyString).
  { destruct (Nat.lt_ge_cases 1 (String.length path)) as [Hlen|Hlen].
    - pose proof (already_windows_looks _ Hlen Hw) as Ha.
      rewrite (unix_path_to_win_windows path _ Ha). split; [reflexivity|].
      rewrite unix_path_to_win_windows by now rewrite already_windows_replace.
      now rewrite str_replace_twice by discriminate.
    - rewrite (looks_windows_short _ Hlen Hw). split; reflexivity. }
  destruct H as [H1 H2].
  split; [exact H1|]. split; [apply str_replace_length|].
  split; [intros n; apply get_replace|]. now rewrite H2.
Qed.

Lemma unix_path_to_win_idempotent_witness :
  looks_windows "c:/Users/x;d:/y" /\
  (exists result : string,
      unix_path_to_win "c:/Users/x;d:/y" EmptyString = Some (Returned result) /\
      String.length result = String.length "c:/Users/x;d:/y" /\
      (forall n,
          String.get n result
          = option_map (fun c => if Ascii.eqb c "/" then BS else c)
                       (String.get n "c:/Users/x;d:/y")) /\
      unix_path_to_win result EmptyString = Some (Returned result)) /\
  unix_path_to_win "c:/Users/x;d:/y" EmptyString
  = Some (Returned ("c:" +:+ chr BS +:+ "Users" +:+ chr BS +:+ "x;d:" +:+
                    chr BS +:+ "y")) /\
  unix_path_to_win ("c:" +:+ chr BS +:+ "Users" +:+ chr BS +:+ "x;d:" +:+
                    chr BS +:+ "y") EmptyString
  = Some (Returned ("c:" +:+ chr BS +:+ "Users" +:+ chr BS +:+ "x;d:" +:+
                    chr BS +:+ "y")).
Proof.
  assert (Hw : looks_windows "c:/Users/x;d:/y") by (left; reflexivity).
  split; [exact Hw|]. split; [|split; vm_compute; reflexivity].
  exact (unix_path_to_win_idempotent "c:/Users/x;d:/y" Hw).
Defined.

(** C10 as the code has it.  For a prefix of plain characters (none that is
    special in a pattern) and a path of at most one character,
    [unix_path_to_win] returns the path as it is: the test for a Windows
    path fails on the length, and neither pattern matches. *)
Theorem unix_path_to_win_short_unchanged (path root_prefix : string) :
  Re.plain root_prefix = true ->
  String.length path <= 1 ->
  already_windows path = false /\
  unix_path_to_win path root_prefix = Some (Returned path).
Proof.
  intros Hp Hlen.
  pose proof (already_windows_short _ Hlen) as Hw.
  split; [exact Hw|].
  apply unix_path_to_win_short; [exact Hp|lia|exact Hw].
Qed.

Lemma unix_path_to_win_short_unchanged_witness :
  Re.plain "/cygdrive" = true /\
  String.length ";" <= 1 /\
  already_windows ";" = false /\
  unix_path_to_win ";" "/cygdrive" = Some (Returned ";").
Proof.
  assert (Hp : Re.plain "/cygdrive" = true) by reflexivity.
  assert (Hlen : String.length ";" <= 1) by (simpl; lia).
  split; [exact Hp|]. split; [exact Hlen|].
  exact (unix_path_to_win_short_unchanged ";" "/cygdrive" Hp Hlen).
Defined.

(** C10 as stated fails: the prefix is read as pattern text, and with the
    prefix made of the alternation bar the pattern matches the empty text;
    the replacement function then reads past the end of the match and
    IndexError is raised instead of the empty path being returned. *)
Lemma unix_path_to_win_short_raises :
  String.length EmptyString <= 1 /\
  unix_path_to_win EmptyString "|" = Some (Raised IndexError) /\
  unix_path_to_win EmptyString "|" <> Some (Returned EmptyString).
Proof.
  split; [simpl; lia|]. split; [reflexivity|]. vm_compute. discriminate.
Qed.

(** ** The wrapper script *)

Section Wrapper.

Variable h : host.

Lemma multiline_iff arguments :
  multiline arguments = true <->
  exists a, arguments = [a] /\ str_in (chr NL) a = true.
Proof.
  unfold multiline. split.
  - destruct arguments as [|a [|b arguments]]; simpl; try discriminate.
    intros H. now exists a.
  - intros (a & -> & Ha). simpl. exact Ha.
Qed.

(** A code point from 128 on is encoded in two bytes. *)
Lemma encode_utf8_two_bytes :
  encode_utf8 ("caf" +:+ chr "233") = "caf" +:+ chr "195" +:+ chr "169".
Proof. reflexivity. Qed.

(** The batch file: the third write is handed bytes and raises, and the file
    keeps the two lines written before it. *)
Lemma bat_writes_raise conda_bat prefix arguments :
  write_each (bat_writes h conda_bat prefix arguments) []
  = ([chcp_save; chcp_utf8], Some TypeError).
Proof. reflexivity. Qed.

(** The shell script: the lines that activate, then the command. *)
Lemma sh_script_shape conda_exe prefix debug arguments :
  exists before,
    length before = (if debug : bool then 5 else 2) /\
    In (eval_line (quote_for_shell h (conda_exe ++ ["shell.posix"; "hook"]) None))
       before /\
    sh_script h conda_exe prefix debug arguments
    = before ++
      [if multiline arguments then str_join " " arguments +:+ chr NL
       else if length arguments =? 1 then repr_list arguments +:+ chr NL
       else quote_for_shell h arguments None +:+ chr NL].
Proof.
  unfold sh_script, write.
  destruct debug.
  - eexists [_; _; _; _; _]. split; [reflexivity|]. split.
    + simpl. right. right. left. reflexivity.
    + destruct (multiline arguments); [reflexivity|].
      destruct (length arguments =? 1); reflexivity.
  - eexists [_; _]. split; [reflexivity|]. split.
    + simpl. left. reflexivity.
    + destruct (multiline arguments); [reflexivity|].
      destruct (length arguments =? 1); reflexivity.
Qed.

Lemma command_section_sh before command :
  command_section false (before ++ [command]) = Some command.
Proof. apply last_snoc. Qed.

Lemma command_section_sh_script conda_exe prefix debug arguments :
  command_section false (sh_script h conda_exe prefix debug arguments)
  = Some (if multiline arguments then str_join " " arguments +:+ chr NL
          else if length arguments =? 1 then repr_list arguments +:+ chr NL
          else quote_for_shell h arguments None +:+ chr NL).
Proof.
  destruct (sh_script_shape conda_exe prefix debug arguments) as (before & _ & _ & ->).
  apply command_section_sh.
Qed.

Lemma wrap_windows w root_prefix prefix dev_mode debug arguments comspec :
  environ w !! "COMSPEC" = Some comspec ->
  wrap_subprocess_call h w true root_prefix prefix dev_mode debug arguments
  = (Raised TypeError,
     World (environ w)
           (<[temp_name h (files w) (abspath h (join h prefix [".tmp"])) (Some ".bat")
              := [chcp_save; chcp_utf8]]> (files w))).
Proof. intros Hc. unfold wrap_subprocess_call, close. now rewrite Hc. Qed.

Lemma wrap_posix w root_prefix prefix dev_mode debug arguments :
  let conda_exe :=
    if dev_mode : bool
    then [abspath h (join h root_prefix ["bin"; "python"]); "-m"; "conda"]
    else [default (abspath h (join h root_prefix ["bin"; "conda"]))
                  (environ w !! "CONDA_EXE")] in
  let script_caller :=
    temp_name h (files w) (abspath h (join h prefix [".tmp"])) None in
  wrap_subprocess_call h w false root_prefix prefix dev_mode debug arguments
  = (Returned (script_caller,
               [if str_in "bsd" (sys_platform h) then "sh" else "bash"; "-x";
                script_caller]),
     World (environ w)
           (<[script_caller := sh_script h conda_exe prefix debug arguments]>
              (files w))).
Proof. reflexivity. Qed.

End Wrapper.

(** C2, the code at one argument that holds a line feed.  On a POSIX host
    the call returns and the command section of the script is that argument
    as it is, with the line feed that ends the line.  On a Windows host with
    COMSPEC set the call raises TypeError at the third write, which is
    handed bytes: the file keeps the two lines on the code page, and the
    fourth write, which would be the argument as it is, is not reached.  The
    multiline mode is on for such a vector only; without it the command
    section of the shell script is the quoted command or the lone argument
    formatted. *)
Theorem wrap_multiline_body (h : host) (w : world)
    (root_prefix prefix : string) (dev_mode debug : bool) (body : string) :
  str_in (chr NL) body = true ->
  (exists script_caller command_args w' script,
      wrap_subprocess_call h w false root_prefix prefix dev_mode debug [body]
      = (Returned (script_caller, command_args), w') /\
      files w' !! script_caller = Some script /\
      command_section false script = Some (body +:+ chr NL)) /\
  (forall comspec,
      environ w !! "COMSPEC" = Some comspec ->
      exists w',
        wrap_subprocess_call h w true root_prefix prefix dev_mode debug [body]
        = (Raised TypeError, w') /\
        files w' !! temp_name h (files w) (abspath h (join h prefix [".tmp"]))
                      (Some ".bat")
        = Some ["@FOR /F " +:+ chr DQ +:+ "tokens=100" +:+ chr DQ +:+
                " %%F IN ('chcp') DO @SET CONDA_OLD_CHCP=%%F" +:+ chr NL;
                "@chcp 65001>NUL" +:+ chr NL]) /\
  (forall conda_bat,
      bat_writes h conda_bat prefix [body] !! 3 = Some (Text (body +:+ chr NL))) /\
  (forall arguments,
      multiline arguments = true <->
      exists a, arguments = [a] /\ str_in (chr NL) a = true) /\
  (forall arguments conda_exe,
      multiline arguments = false ->
      command_section false (sh_script h conda_exe prefix debug arguments)
      = Some ((if length arguments =? 1 then repr_list arguments
               else quote_for_shell h arguments None) +:+ chr NL)).
Proof.
  intros Hnl.
  assert (Hm : multiline [body] = true) by (apply multiline_iff; eauto).
  split; [|split; [|split; [|split]]].
  - do 4 eexists. split; [apply wrap_posix|].
    split; [apply lookup_insert_eq|].
    rewrite command_section_sh_script, Hm. reflexivity.
  - intros comspec Hc. eexists.
    split; [apply (wrap_windows h w _ _ _ _ _ _ Hc)|].
    cbn [files]. apply lookup_insert_eq.
  - intros conda_bat. unfold bat_writes. rewrite Hm. reflexivity.
  - apply multiline_iff.
  - intros arguments conda_exe Hf.
    rewrite command_section_sh_script, Hf.
    now destruct (length arguments =? 1).
Qed.

Lemma wrap_multiline_body_witness :
  str_in (chr NL) body_of_lines = true /\
  environ comspec_only !! "COMSPEC" = Some "cmd.exe" /\
  exists w',
    wrap_subprocess_call windows comspec_only true "C:/conda" "C:/conda/envs/e"
      false false [body_of_lines]
    = (Raised TypeError, w') /\
    files w' !! temp_name windows (files comspec_only)
                  (abspath windows (join windows "C:/conda/envs/e" [".tmp"]))
                  (Some ".bat")
    = Some ["@FOR /F " +:+ chr DQ +:+ "tokens=100" +:+ chr DQ +:+
            " %%F IN ('chcp') DO @SET CONDA_OLD_CHCP=%%F" +:+ chr NL;
            "@chcp 65001>NUL" +:+ chr NL].
Proof.
  assert (Hnl : str_in (chr NL) body_of_lines = true) by reflexivity.
  assert (Hc : environ comspec_only !! "COMSPEC" = Some "cmd.exe") by reflexivity.
  split; [exact Hnl|]. split; [exact Hc|].
  exact (proj1 (proj2 (wrap_multiline_body windows comspec_only "C:/conda"
                         "C:/conda/envs/e" false false body_of_lines Hnl))
           "cmd.exe" Hc).
Defined.

(** C3, the code at a lone argument without a line feed.  On a POSIX host
    the command section is the list of the arguments formatted: the argument
    in quotes between square brackets, not the argument as it is. *)
Theorem wrap_posix_lone_argument (h : host) (w : world)
    (root_prefix prefix : string) (dev_mode debug : bool) :
  exists script_caller command_args w' script,
    wrap_subprocess_call h w false root_prefix prefix dev_mode debug ["ls"]
    = (Returned (script_caller, command_args), w') /\
    files w' !! script_caller = Some script /\
    command_section false script = Some ("['ls']" +:+ chr NL) /\
    command_section false script <> Some ("ls" +:+ chr NL).
Proof.
  do 4 eexists. split; [apply wrap_posix|].
  split; [apply lookup_insert_eq|].
  rewrite command_section_sh_script. split; [reflexivity|discriminate].
Qed.

(** C6, the code at arguments the quoting misses.  An empty argument gets no
    quotes and so leaves no word: three arguments come back as two words.
    An argument with a tab gets no quotes either and comes back as two
    words. *)
Theorem quote_for_shell_loses_arguments (h : host) :
  quote_for_shell h ["a"; EmptyString; "b"] (Some "bash") = "a  b" /\
  Sh.words (quote_for_shell h ["a"; EmptyString; "b"] (Some "bash"))
  = Some ["a"; "b"] /\
  Sh.words (quote_for_shell h ["a" +:+ chr TAB +:+ "b"] (Some "bash"))
  = Some ["a"; "b"].
Proof. repeat split; reflexivity. Qed.

(** C7, the code at the environment variables.  On a Windows host the call
    raises KeyError when COMSPEC is not set, and nothing is written.  When
    COMSPEC is set the call does not return, with CONDA_BAT set or not: the
    line that calls conda.bat, which without CONDA_BAT names conda.bat under
    condabin under the root prefix, is handed to the file as bytes and the
    write raises TypeError, after the two lines on the code page.  On a
    POSIX host outside of the development mode, when CONDA_EXE is not set,
    the call returns and the script evaluates the hook of conda under bin
    under the root prefix. *)
Theorem wrap_environment_variables (h : host) (w : world)
    (root_prefix prefix : string) (dev_mode debug : bool)
    (arguments : list string) :
  (environ w !! "COMSPEC" = None ->
   wrap_subprocess_call h w true root_prefix prefix dev_mode debug arguments
   = (Raised (KeyError "COMSPEC"), w)) /\
  (forall comspec,
      environ w !! "COMSPEC" = Some comspec ->
      (exists w',
          wrap_subprocess_call h w true root_prefix prefix dev_mode debug arguments
          = (Raised TypeError, w') /\
          files w' !! temp_name h (files w) (abspath h (join h prefix [".tmp"]))
                        (Some ".bat")
          = Some ["@FOR /F " +:+ chr DQ +:+ "tokens=100" +:+ chr DQ +:+
                  " %%F IN ('chcp') DO @SET CONDA_OLD_CHCP=%%F" +:+ chr NL;
                  "@chcp 65001>NUL" +:+ chr NL]) /\
      (environ w !! "CONDA_BAT" = None ->
       bat_writes h
         (default (abspath h (join h root_prefix ["condabin"; "conda.bat"]))
                  (environ w !! "CONDA_BAT"))
         prefix arguments !! 2
       = Some (Bytes (encode_utf8
                 ("@CALL " +:+ chr DQ +:+
                  abspath h (join h root_prefix ["condabin"; "conda.bat"]) +:+
                  chr DQ +:+ " activate " +:+ chr DQ +:+ prefix +:+ chr DQ +:+
                  chr NL))))) /\
  (environ w !! "CONDA_EXE" = None ->
   exists script_caller command_args w' script,
     wrap_subprocess_call h w false root_prefix prefix false debug arguments
     = (Returned (script_caller, command_args), w') /\
     files w' !! script_caller = Some script /\
     In ("eval " +:+ chr DQ +:+ "$(" +:+
         quote_for_shell h
           [abspath h (join h root_prefix ["bin"; "conda"]); "shell.posix"; "hook"]
           None +:+
         ")" +:+ chr DQ +:+ chr NL)
        script).
Proof.
  split; [|split].
  - intros Hc. unfold wrap_subprocess_call. now rewrite Hc.
  - intros comspec Hc. split.
    + eexists. split; [apply (wrap_windows h w _ _ _ _ _ _ Hc)|].
      cbn [files]. apply lookup_insert_eq.
    + intros Hbat. rewrite Hbat. reflexivity.
  - intros Hexe.
    do 4 eexists. split; [apply wrap_posix|].
    split; [apply lookup_insert_eq|].
    rewrite Hexe. simpl default.
    destruct (sh_script_shape h [abspath h (join h root_prefix ["bin"; "conda"])]
                prefix debug arguments) as (before & _ & Hin & ->).
    apply in_or_app. now left.
Qed.

Lemma wrap_environment_variables_witness :
  (environ empty_world !! "COMSPEC" = None /\
   wrap_subprocess_call windows empty_world true "C:/conda" "C:/conda/envs/e"
     false false ["dir"]
   = (Raised (KeyError "COMSPEC"), empty_world)) /\
  (environ comspec_only !! "COMSPEC" = Some "cmd.exe" /\
   environ comspec_only !! "CONDA_BAT" = None /\
   (exists w',
       wrap_subprocess_call windows comspec_only true "C:/conda" "C:/conda/envs/e"
         false false ["dir"]
       = (Raised TypeError, w') /\
       files w' !! temp_name windows (files comspec_only)
                     (abspath windows (join windows "C:/conda/envs/e" [".tmp"]))
                     (Some ".bat")
       = Some ["@FOR /F " +:+ chr DQ +:+ "tokens=100" +:+ chr DQ +:+
               " %%F IN ('chcp') DO @SET CONDA_OLD_CHCP=%%F" +:+ chr NL;
               "@chcp 65001>NUL" +:+ chr NL]) /\
   bat_writes windows
     (default (abspath windows (join windows "C:/conda" ["condabin"; "conda.bat"]))
              (environ comspec_only !! "CONDA_BAT"))
     "C:/conda/envs/e" ["dir"] !! 2
   = Some (Bytes ("@CALL " +:+ chr DQ +:+ "C:" +:+ chr BS +:+ "conda" +:+ chr BS +:+
                  "condabin" +:+ chr BS +:+ "conda.bat" +:+ chr DQ +:+
                  " activate " +:+ chr DQ +:+ "C:/conda/envs/e" +:+ chr DQ +:+
                  chr NL))) /\
  (environ empty_world !! "CONDA_EXE" = None /\
   (exists script_caller command_args w' script,
       wrap_subprocess_call linux empty_world false "/opt/conda" "/opt/conda/envs/e"
         false false ["ls"; "-l"]
       = (Returned (script_caller, command_args), w') /\
       files w' !! script_caller = Some script /\
       In ("eval " +:+ chr DQ +:+ "$(" +:+
           quote_for_shell linux
             [abspath linux (join linux "/opt/conda" ["bin"; "conda"]);
              "shell.posix"; "hook"]
             None +:+
           ")" +:+ chr DQ +:+ chr NL)
          script) /\
   (wrap_subprocess_call linux empty_world false "/opt/conda" "/opt/conda/envs/e"
      false false ["ls"; "-l"]).1
   = Returned ("/opt/conda/envs/e/.tmpk3x9q7a_",
               ["bash"; "-x"; "/opt/conda/envs/e/.tmpk3x9q7a_"]) /\
   files (wrap_subprocess_call linux empty_world false "/opt/conda"
            "/opt/conda/envs/e" false false ["ls"; "-l"]).2
     !! "/opt/conda/envs/e/.tmpk3x9q7a_"
   = Some ["eval " +:+ chr DQ +:+ "$(/opt/conda/bin/conda shell.posix hook)" +:+
           chr DQ +:+ chr NL;
           "conda activate /opt/conda/envs/e" +:+ chr NL;
           "ls -l" +:+ chr NL]).
Proof.
  assert (H1 : environ empty_world !! "COMSPEC" = None) by reflexivity.
  assert (H2 : environ comspec_only !! "COMSPEC" = Some "cmd.exe") by reflexivity.
  assert (H3 : environ comspec_only !! "CONDA_BAT" = None) by reflexivity.
  assert (H4 : environ empty_world !! "CONDA_EXE" = None) by reflexivity.
  split; [|split].
  - split; [exact H1|].
    exact (proj1 (wrap_environment_variables windows empty_world "C:/conda"
                    "C:/conda/envs/e" false false ["dir"]) H1).
  - split; [exact H2|]. split; [exact H3|]. split.
    + exact (proj1 (proj1 (proj2 (wrap_environment_variables windows comspec_only
                                    "C:/conda" "C:/conda/envs/e" false false ["dir"]))
                      "cmd.exe" H2)).
    + exact (proj2 (proj1 (proj2 (wrap_environment_variables windows comspec_only
                                    "C:/conda" "C:/conda/envs/e" false false ["dir"]))
                      "cmd.exe" H2) H3).
  - split; [exact H4|]. split; [|split; vm_compute; reflexivity].
    exact (proj2 (proj2 (wrap_environment_variables linux empty_world "/opt/conda"
                           "/opt/conda/envs/e" false false ["ls"; "-l"])) H4).
Defined.

(** C8. In the development mode on a POSIX host the call returns, and the
    script it writes holds the line that evaluates the hook of python under
    bin under the root prefix, run with the module conda: eval, a double
    quote, a dollar and a parenthesis, the quoted command of python, -m,
    conda, shell.posix and hook, a parenthesis, a double quote and a line
    feed.  The environment has no part in the call: with any other
    environment, CONDA_EXE set or not, the call returns the same value and
    writes the same files. *)
Theorem wrap_posix_dev_mode (h : host) (w : world)
    (root_prefix prefix : string) (debug : bool) (arguments : list string) :
  (exists script_caller command_args w' script,
      wrap_subprocess_call h w false root_prefix prefix true debug arguments
      = (Returned (script_caller, command_args), w') /\
      files w' !! script_caller = Some script /\
      script
      = sh_script h [abspath h (join h root_prefix ["bin"; "python"]); "-m"; "conda"]
          prefix debug arguments /\
      In ("eval " +:+ chr DQ +:+ "$(" +:+
          quote_for_shell h
            [abspath h (join h root_prefix ["bin"; "python"]); "-m"; "conda";
             "shell.posix"; "hook"]
            None +:+
          ")" +:+ chr DQ +:+ chr NL)
         script) /\
  (forall environ' : gmap string string,
      (wrap_subprocess_call h (World environ' (files w)) false root_prefix prefix
         true debug arguments).1
      = (wrap_subprocess_call h w false root_prefix prefix true debug arguments).1 /\
      files (wrap_subprocess_call h (World environ' (files w)) false root_prefix
               prefix true debug arguments).2
      = files (wrap_subprocess_call h w false root_prefix prefix true debug
                 arguments).2).
Proof.
  split.
  - do 4 eexists. split; [apply wrap_posix|].
    split; [apply lookup_insert_eq|]. split; [reflexivity|].
    destruct (sh_script_shape h
                [abspath h (join h root_prefix ["bin"; "python"]); "-m"; "conda"]
                prefix debug arguments) as (before & _ & Hin & ->).
    apply in_or_app. now left.
  - intros environ'. split; reflexivity.
Qed.

Lemma wrap_posix_dev_mode_witness :
  (exists script_caller command_args w' script,
      wrap_subprocess_call linux with_overrides false "/opt/conda"
        "/opt/conda/envs/e" true false ["ls"; "-l"]
      = (Returned (script_caller, command_args), w') /\
      files w' !! script_caller = Some script /\
      script
      = sh_script linux
          [abspath linux (join linux "/opt/conda" ["bin"; "python"]); "-m"; "conda"]
          "/opt/conda/envs/e" false ["ls"; "-l"] /\
      In ("eval " +:+ chr DQ +:+ "$(" +:+
          quote_for_shell linux
            [abspath linux (join linux "/opt/conda" ["bin"; "python"]); "-m";
             "conda"; "shell.posix"; "hook"]
            None +:+
          ")" +:+ chr DQ +:+ chr NL)
         script) /\
  (wrap_subprocess_call linux with_overrides false "/opt/conda" "/opt/conda/envs/e"
     true false ["ls"; "-l"]).1
  = Returned ("/opt/conda/envs/e/.tmpk3x9q7a_",
              ["bash"; "-x"; "/opt/conda/envs/e/.tmpk3x9q7a_"]) /\
  files (wrap_subprocess_call linux with_overrides false "/opt/conda"
           "/opt/conda/envs/e" true false ["ls"; "-l"]).2
    !! "/opt/conda/envs/e/.tmpk3x9q7a_"
  = Some ["eval " +:+ chr DQ +:+
          "$(/opt/conda/bin/python -m conda shell.posix hook)" +:+
          chr DQ +:+ chr NL;
          "conda activate /opt/conda/envs/e" +:+ chr NL;
          "ls -l" +:+ chr NL].
Proof.
  split; [|split; vm_compute; reflexivity].
  exact (proj1 (wrap_posix_dev_mode linux with_overrides "/opt/conda"
                  "/opt/conda/envs/e" false ["ls"; "-l"])).
Defined.

(** C9. On a POSIX host the registry has an entry for dash; its source_setup
    is a dot, its exe is dash, and at every other key it has what the POSIX
    base has there, where source_setup is source and exe is absent. *)
Theorem dash_dialect :
  exists dash : gmap string value,
    shells false !! "dash" = Some dash /\
    dash !! "source_setup" = Some (Str ".") /\
    dash !! "exe" = Some (Str "dash") /\
    (forall key : string,
        key <> "source_setup" -> key <> "exe" ->
        dash !! key = unix_shell_base !! key) /\
    unix_shell_base !! "source_setup" = Some (Str "source") /\
    unix_shell_base !! "exe" = None.
Proof.
  exists (<["source_setup" := Str "."]> (<["exe" := Str "dash"]> unix_shell_base)).
  split; [vm_compute; reflexivity|].
  split; [apply lookup_insert_eq|].
  split; [rewrite lookup_insert_ne by discriminate; apply lookup_insert_eq|].
  split; [|split; vm_compute; reflexivity].
  intros key Hs He.
  rewrite lookup_insert_ne by congruence.
  now rewrite lookup_insert_ne by congruence.
Qed.

(** ** What the quoting does carry through the word splitting *)

Section WordSplitting.

Lemma append_cons c s t : String c s +:+ t = String c (s +:+ t).
Proof. reflexivity. Qed.

Lemma append_nil_r s : s +:+ EmptyString = s.
Proof. induction s as [|c s IH]; [reflexivity|]. now rewrite append_cons, IH. Qed.

Lemma append_assoc s t u : (s +:+ t) +:+ u = s +:+ (t +:+ u).
Proof.
  induction s as [|c s IH]; [reflexivity|]. now rewrite !append_cons, IH.
Qed.

Lemma has_cons_false c x s :
  has c (String x s) = false -> Ascii.eqb x c = false /\ has c s = false.
Proof. simpl. apply orb_false_iff. Qed.

(** Inside single quotes every character up to the closing quote is kept. *)
Lemma split_single a w rest :
  has SQ a = false ->
  Sh.split Sh.Single (Some w) (a +:+ String SQ rest)
  = Sh.split Sh.Plain (Some (w +:+ a)) rest.
Proof.
  revert w. induction a as [|c a IH]; intros w Hs.
  - simpl. now rewrite append_nil_r.
  - apply has_cons_false in Hs as [Hc Hs].
    rewrite append_cons. simpl. rewrite Hc.
    unfold Sh.push. simpl default. rewrite (IH _ Hs).
    now rewrite append_assoc.
Qed.

Lemma none_of_cons p c s :
  none_of p (String c s) = true -> p c = false /\ none_of p s = true.
Proof.
  simpl. intros H. apply andb_true_iff in H as [H1 H2].
  now apply negb_true_iff in H1.
Qed.

(** Inside double quotes too, when no backslash and no character that
    expands is met. *)
Lemma split_double a w rest :
  has DQ a = false -> has BS a = false -> none_of Sh.expands a = true ->
  Sh.split Sh.Double (Some w) (a +:+ String DQ rest)
  = Sh.split Sh.Plain (Some (w +:+ a)) rest.
Proof.
  revert w. induction a as [|c a IH]; intros w Hd Hb He.
  - simpl. now rewrite append_nil_r.
  - apply has_cons_false in Hd as [Hcd Hd].
    apply has_cons_false in Hb as [Hcb Hb].
    apply none_of_cons in He as [Hce He].
    rewrite append_cons. cbn [Sh.split]. rewrite Hcd, Hcb, Hce.
    unfold Sh.push. simpl default. rewrite (IH _ Hd Hb He).
    now rewrite append_assoc.
Qed.

(** Outside of quotes one character that is no blank, no quote, no
    backslash and has no meaning of its own goes to the word. *)
Lemma split_plain_char c cur rest :
  Ascii.eqb c " " = false -> Ascii.eqb c TAB = false -> Ascii.eqb c NL = false ->
  Ascii.eqb c SQ = false -> Ascii.eqb c DQ = false -> Ascii.eqb c BS = false ->
  Sh.operator c = false ->
  Sh.split Sh.Plain cur (String c rest)
  = Sh.split Sh.Plain (Some (default EmptyString cur +:+ chr c)) rest.
Proof.
  intros Hsp Ht Hn Hs Hd Hb Ho.
  cbn [Sh.split]. unfold Sh.blank.
  rewrite Hn, Hsp, Ht, Hs, Hd, Hb, Ho. reflexivity.
Qed.

Lemma split_plain a w rest :
  has " " a = false -> has TAB a = false -> has NL a = false ->
  has SQ a = false -> has DQ a = false -> has BS a = false ->
  none_of Sh.operator a = true ->
  Sh.split Sh.Plain (Some w) (a +:+ rest)
  = Sh.split Sh.Plain (Some (w +:+ a)) rest.
Proof.
  revert w. induction a as [|c a IH]; intros w Hsp Ht Hn Hs Hd Hb Ho.
  - now rewrite append_nil_r.
  - apply has_cons_false in Hsp as [Hcsp Hsp].
    apply has_cons_false in Ht as [Hct Ht].
    apply has_cons_false in Hn as [Hcn Hn].
    apply has_cons_false in Hs as [Hcs Hs].
    apply has_cons_false in Hd as [Hcd Hd].
    apply has_cons_false in Hb as [Hcb Hb].
    apply none_of_cons in Ho as [Hco Ho].
    rewrite append_cons, split_plain_char by assumption.
    simpl default. rewrite (IH _ Hsp Ht Hn Hs Hd Hb Ho).
    now rewrite append_assoc.
Qed.

Lemma quoted_arg_shape q arg rest :
  quoted_arg (chr q) arg +:+ rest = String q (arg +:+ String q rest).
Proof. unfold quoted_arg, chr. now rewrite !append_assoc. Qed.

Lemma quoted_arg_bare arg : quoted_arg EmptyString arg = arg.
Proof. unfold quoted_arg. now rewrite append_nil_r. Qed.

Lemma split_open_single arg rest :
  has SQ arg = false ->
  Sh.split Sh.Plain None (quoted_arg (chr SQ) arg +:+ rest)
  = Sh.split Sh.Plain (Some arg) rest.
Proof.
  intros Hs. rewrite quoted_arg_shape.
  change (Sh.split Sh.Plain None (String SQ (arg +:+ String SQ rest)))
    with (Sh.split Sh.Single (Some EmptyString) (arg +:+ String SQ rest)).
  now rewrite split_single.
Qed.

Lemma split_open_double arg rest :
  has DQ arg = false -> has BS arg = false -> none_of Sh.expands arg = true ->
  Sh.split Sh.Plain None (quoted_arg (chr DQ) arg +:+ rest)
  = Sh.split Sh.Plain (Some arg) rest.
Proof.
  intros Hd Hb He. rewrite quoted_arg_shape.
  change (Sh.split Sh.Plain None (String DQ (arg +:+ String DQ rest)))
    with (Sh.split Sh.Double (Some EmptyString) (arg +:+ String DQ rest)).
  now rewrite split_double.
Qed.

(** One quoted argument is read back as one word. *)
Lemma split_quoted_arg arg rest :
  carried arg = true ->
  Sh.split Sh.Plain None (quoted_arg (quote_of arg) arg +:+ rest)
  = Sh.split Sh.Plain (Some arg) rest.
Proof.
  unfold carried, quote_of. rewrite !str_in_chr.
  change (str_in " " arg) with (str_in (chr " ") arg). rewrite str_in_chr.
  intros H.
  apply andb_true_iff in H as [H0 H]. apply andb_true_iff in H0 as [_ Hb].
  apply negb_true_iff in Hb.
  destruct (has DQ arg) eqn:Hd.
  - apply negb_true_iff in H. now apply split_open_single.
  - destruct (has SQ arg) eqn:Hs.
    + cbn [orb] in H. now apply split_open_double.
    + destruct (has " " arg) eqn:Hsp; cbn [negb andb orb] in H |- *.
      * now apply split_open_double.
      * destruct (has NL arg) eqn:Hn; cbn [negb andb orb] in H |- *.
        -- now apply split_open_double.
        -- apply andb_true_iff in H as [H Ho].
           apply andb_true_iff in H as [He Ht].
           apply negb_true_iff in Ht, He.
           rewrite quoted_arg_bare.
           destruct arg as [|c arg]; [discriminate|].
           apply has_cons_false in Hsp as [Hcsp Hsp].
           apply has_cons_false in Ht as [Hct Ht].
           apply has_cons_false in Hn as [Hcn Hn].
           apply has_cons_false in Hs as [Hcs Hs].
           apply has_cons_false in Hd as [Hcd Hd].
           apply has_cons_false in Hb as [Hcb Hb].
           apply none_of_cons in Ho as [Hco Ho].
           rewrite append_cons, split_plain_char by assumption.
           simpl default. change (EmptyString +:+ chr c) with (chr c).
           now rewrite split_plain.
Qed.

Lemma split_space w rest :
  Sh.split Sh.Plain (Some w) (String " " rest)
  = option_map (cons w) (Sh.split Sh.Plain None rest).
Proof. reflexivity. Qed.

Lemma concat_cons sep a b l :
  String.concat sep (a :: b :: l) = a +:+ sep +:+ String.concat sep (b :: l).
Proof. reflexivity. Qed.

Lemma words_joined arguments :
  forallb carried arguments = true ->
  Sh.words (str_join " " (map (fun arg => quoted_arg (quote_of arg) arg) arguments))
  = Some arguments.
Proof.
  unfold Sh.words, str_join.
  induction arguments as [|x [|y arguments] IH]; intros H.
  - reflexivity.
  - simpl in H. apply andb_true_iff in H as [Hx _].
    change (String.concat " " (map _ [x])) with (quoted_arg (quote_of x) x).
    rewrite <- (append_nil_r (quoted_arg (quote_of x) x)).
    now rewrite split_quoted_arg.
  - apply andb_true_iff in H as [Hx H].
    specialize (IH H). cbn [map] in IH |- *.
    rewrite concat_cons.
    rewrite split_quoted_arg by exact Hx.
    rewrite append_cons, split_space.
    change (EmptyString +:+ ?t) with t.
    now rewrite IH.
Qed.

(** For arguments that the quoting carries, the words of the quoted command
    are the arguments. *)
Lemma quote_for_shell_words h arguments shell :
  shell_or_default h shell <> "cmd.exe" ->
  forallb carried arguments = true ->
  Sh.words (quote_for_shell h arguments shell) = Some arguments.
Proof.
  intros Hsh Hc. rewrite quote_for_shell_not_cmd by exact Hsh.
  now apply words_joined.
Qed.

End WordSplitting.

(** * Further properties *)

(** ** The substitution *)

Section Substitution.

Lemma append_length s t :
  String.length (s +:+ t) = String.length s + String.length t.
Proof.
  induction s as [|c s IH]; [reflexivity|].
  rewrite append_cons. simpl. now rewrite IH.
Qed.

Lemma str_upto_length n s :
  String.length (str_upto n s) = Nat.min n (String.length s).
Proof.
  revert n. induction s as [|c s IH]; intros [|n]; simpl; try reflexivity.
  now rewrite IH.
Qed.

Lemma get_in_range k s :
  k < String.length s -> exists c, String.get k s = Some c.
Proof.
  revert k. induction s as [|x s IH]; intros k Hk; simpl in Hk; [lia|].
  destruct k as [|k]; simpl; [eauto|]. apply IH. lia.
Qed.

Lemma prefix_length a s :
  String.prefix a s = true -> String.length a <= String.length s.
Proof.
  revert a. induction s as [|x s IH]; intros [|y a]; simpl;
    try lia; try discriminate.
  destruct (ascii_dec y x); [|discriminate].
  intros H. apply IH in H. lia.
Qed.

Lemma rest_length_le s : Re.rest_length s <= String.length s.
Proof.
  induction s as [|c s IH]; [simpl; lia|].
  change (Re.rest_length (String c s))
    with (if negb (Re.lookahead (String c s)) && negb (Re.reserved c)
          then S (Re.rest_length s) else 0).
  destruct (negb _ && negb _); simpl; lia.
Qed.

(** One step of [Re.sub], case by case. *)
Lemma sub_skip m repl k c s :
  Re.sub m repl (S k) (String c s) = Re.sub m repl k s.
Proof. reflexivity. Qed.

Lemma sub_end m repl :
  m false EmptyString = None -> Re.sub m repl 0 EmptyString = Returned EmptyString.
Proof. intros H. simpl. now rewrite H. Qed.

Lemma sub_copy m repl c s :
  m false (String c s) = None ->
  Re.sub m repl 0 (String c s)
  = bind (Re.sub m repl 0 s) (fun t => Returned (String c t)).
Proof. intros H. simpl. now rewrite H. Qed.

Lemma sub_replace m repl n c s :
  m false (String c s) = Some (S n) ->
  Re.sub m repl 0 (String c s)
  = bind (repl (str_upto (S n) (String c s))) (fun r =>
      bind (Re.sub m repl n s) (fun t => Returned (r +:+ t))).
Proof. intros H. simpl. now rewrite H. Qed.

(** A pattern whose matches are never empty and lie inside the text, with a
    replacement that returns on them a text no longer than the match: the
    substitution returns, and its result is no longer than the text. *)
Lemma sub_returns_shorter m repl :
  (forall adv s n,
      m adv s = Some n ->
      0 < n /\ n <= String.length s /\
      exists r, repl (str_upto n s) = Returned r /\ String.length r <= n) ->
  forall s skip,
    skip <= String.length s ->
    exists t, Re.sub m repl skip s = Returned t /\
              String.length t + skip <= String.length s.
Proof.
  intros Hm. induction s as [|c s IH]; intros skip Hskip.
  - simpl in Hskip. assert (skip = 0) as -> by lia.
    destruct (m false EmptyString) as [n|] eqn:He.
    + apply Hm in He as (Hpos & Hle & _). simpl in Hle. lia.
    + rewrite (sub_end _ _ He). exists EmptyString. simpl. split; [reflexivity|lia].
  - simpl in Hskip. destruct skip as [|k].
    + destruct (m false (String c s)) as [[|n]|] eqn:He.
      * apply Hm in He as (Hpos & _). lia.
      * rewrite (sub_replace _ _ _ _ _ He).
        apply Hm in He as (_ & Hle & r & -> & Hr). simpl in Hle.
        destruct (IH n) as (t & -> & Ht); [lia|].
        exists (r +:+ t). split; [reflexivity|].
        rewrite append_length. simpl. lia.
      * rewrite (sub_copy _ _ _ _ He).
        destruct (IH 0) as (t & -> & Ht); [lia|].
        exists (String c t). split; [reflexivity|]. simpl. lia.
    + rewrite sub_skip. destruct (IH k) as (t & -> & Ht); [lia|].
      exists t. split; [reflexivity|]. simpl. lia.
Qed.

(** The same with a replacement that keeps the length of the match. *)
Lemma sub_returns_same_length m repl :
  (forall adv s n,
      m adv s = Some n ->
      0 < n /\ n <= String.length s /\
      exists r, repl (str_upto n s) = Returned r /\ String.length r = n) ->
  forall s skip,
    skip <= String.length s ->
    exists t, Re.sub m repl skip s = Returned t /\
              String.length t + skip = String.length s.
Proof.
  intros Hm. induction s as [|c s IH]; intros skip Hskip.
  - simpl in Hskip. assert (skip = 0) as -> by lia.
    destruct (m false EmptyString) as [n|] eqn:He.
    + apply Hm in He as (Hpos & Hle & _). simpl in Hle. lia.
    + rewrite (sub_end _ _ He). exists EmptyString. simpl. split; [reflexivity|lia].
  - simpl in Hskip. destruct skip as [|k].
    + destruct (m false (String c s)) as [[|n]|] eqn:He.
      * apply Hm in He as (Hpos & _). lia.
      * rewrite (sub_replace _ _ _ _ _ He).
        apply Hm in He as (_ & Hle & r & -> & Hr). simpl in Hle.
        destruct (IH n) as (t & -> & Ht); [lia|].
        exists (r +:+ t). split; [reflexivity|].
        rewrite append_length. simpl. lia.
      * rewrite (sub_copy _ _ _ _ He).
        destruct (IH 0) as (t & -> & Ht); [lia|].
        exists (String c t). split; [reflexivity|]. simpl. lia.
    + rewrite sub_skip. destruct (IH k) as (t & -> & Ht); [lia|].
      exists t. split; [reflexivity|]. simpl. lia.
Qed.

End Substitution.

(** ** Path translation never raises on a plain prefix *)

Section PathSafety.

Lemma str_from_length_le n s :
  String.length (str_from n s) <= String.length s.
Proof. rewrite str_from_length. lia. Qed.

Lemma match_drive_bounds s n :
  Re.match_drive s = Some n -> 3 <= n /\ n <= String.length s.
Proof.
  destruct s as [|a [|l [|b rest]]]; simpl; try discriminate.
  destruct (_ && _ && _); [|discriminate].
  intros [= <-]. pose proof (rest_length_le rest). lia.
Qed.

Lemma match_path_plain_bounds root_prefix adv s n :
  Re.match_path (Re.PathRe [] root_prefix) adv s = Some n ->
  String.length root_prefix + 3 <= n /\ n <= String.length s.
Proof.
  unfold Re.match_path. simpl.
  destruct (String.prefix root_prefix s) eqn:Hp; [|discriminate].
  destruct (Re.match_drive _) as [k|] eqn:Hd; [|discriminate].
  intros [= <-]. apply match_drive_bounds in Hd as [H3 Hk].
  rewrite str_from_length in Hk. apply prefix_length in Hp. lia.
Qed.

Lemma match_sep_bounds adv s n :
  Re.match_sep adv s = Some n -> n = 4 /\ 4 <= String.length s.
Proof.
  destruct s as [|a [|l [|c [|b rest]]]]; simpl; try discriminate.
  destruct (_ && _ && _ && _); [|discriminate].
  intros [= <-]. split; [reflexivity|lia].
Qed.

Lemma translation_returns root_prefix group :
  String.length root_prefix + 2 <= String.length group ->
  exists r, _translation root_prefix group = Returned r /\
            String.length r + String.length root_prefix = String.length group.
Proof.
  intros Hlen. unfold _translation, str_item.
  destruct (get_in_range (String.length root_prefix + 1) group) as [c ->]; [lia|].
  simpl bind. eexists. split; [reflexivity|].
  rewrite !append_length, str_replace_length, str_from_length.
  simpl String.length. lia.
Qed.

Lemma sep_repl_returns group :
  String.length group = 4 ->
  exists r, sep_repl group = Returned r /\ String.length r = 4.
Proof.
  intros Hlen. unfold sep_repl, str_item.
  destruct (get_in_range 1 group) as [c ->]; [lia|].
  simpl bind. eexists. split; reflexivity.
Qed.

Lemma path_matches root_prefix adv s n :
  Re.match_path (Re.PathRe [] root_prefix) adv s = Some n ->
  0 < n /\ n <= String.length s /\
  exists r, _translation root_prefix (str_upto n s) = Returned r /\
            String.length r + String.length root_prefix = n.
Proof.
  intros H. apply match_path_plain_bounds in H as [Hlo Hhi].
  split; [lia|]. split; [exact Hhi|].
  destruct (translation_returns root_prefix (str_upto n s)) as (r & Hr & Hl).
  - rewrite str_upto_length. lia.
  - exists r. split; [exact Hr|]. rewrite str_upto_length in Hl. lia.
Qed.

Lemma sep_matches adv s n :
  Re.match_sep adv s = Some n ->
  0 < n /\ n <= String.length s /\
  exists r, sep_repl (str_upto n s) = Returned r /\ String.length r = n.
Proof.
  intros H. apply match_sep_bounds in H as [-> Hlen].
  split; [lia|]. split; [exact Hlen|].
  apply sep_repl_returns. rewrite str_upto_length. lia.
Qed.

End PathSafety.

(** X1. With a prefix of plain characters [unix_path_to_win] returns for
    every path, it never raises, and the text it returns is no longer than
    the path. *)
Theorem unix_path_to_win_returns (path root_prefix : string) :
  Re.plain root_prefix = true ->
  exists r, unix_path_to_win path root_prefix = Some (Returned r) /\
            String.length r <= String.length path.
Proof.
  intros Hp. unfold unix_path_to_win.
  destruct (already_windows path).
  - eexists. split; [reflexivity|]. rewrite str_replace_length. lia.
  - rewrite (compile_plain _ Hp).
    destruct (sub_returns_shorter (Re.match_path (Re.PathRe [] root_prefix))
                (_translation root_prefix)) with (s := path) (skip := 0)
      as (t & -> & Ht); [|lia|].
    { intros adv s n H. apply path_matches in H as (H0 & H1 & r & Hr & Hl).
      split; [exact H0|]. split; [exact H1|]. exists r. split; [exact Hr|lia]. }
    simpl bind.
    destruct (sub_returns_same_length Re.match_sep sep_repl) with (s := t) (skip := 0)
      as (u & -> & Hu); [|lia|].
    { intros adv s n H. now apply sep_matches in H. }
    exists u. split; [reflexivity|lia].
Qed.

Lemma unix_path_to_win_returns_witness :
  Re.plain "/cygdrive" = true /\
  exists r, unix_path_to_win "/cygdrive/c/x y:/cygdrive/d/z" "/cygdrive"
            = Some (Returned r) /\
            String.length r <= String.length "/cygdrive/c/x y:/cygdrive/d/z".
Proof.
  assert (Hp : Re.plain "/cygdrive" = true) by reflexivity.
  split; [exact Hp|].
  exact (unix_path_to_win_returns "/cygdrive/c/x y:/cygdrive/d/z" "/cygdrive" Hp).
Defined.

(** X2. With the empty prefix the translation keeps the length of the path:
    every replacement puts as many characters as it takes. *)
Theorem unix_path_to_win_same_length (path : string) :
  exists r, unix_path_to_win path EmptyString = Some (Returned r) /\
            String.length r = String.length path.
Proof.
  unfold unix_path_to_win.
  destruct (already_windows path).
  - eexists. split; [reflexivity|]. apply str_replace_length.
  - change (Re.compile EmptyString) with (Some (Re.PathRe [] EmptyString)).
    cbv iota.
    destruct (sub_returns_same_length (Re.match_path (Re.PathRe [] EmptyString))
                (_translation EmptyString)) with (s := path) (skip := 0)
      as (t & -> & Ht); [|lia|].
    { intros adv s n H. apply path_matches in H as (H0 & H1 & r & Hr & Hl).
      split; [exact H0|]. split; [exact H1|]. exists r. split; [exact Hr|].
      simpl in Hl. lia. }
    simpl bind.
    destruct (sub_returns_same_length Re.match_sep sep_repl) with (s := t) (skip := 0)
      as (u & -> & Hu); [|lia|].
    { intros adv s n H. now apply sep_matches in H. }
    exists u. split; [reflexivity|lia].
Qed.

(** ** Paths that no pattern touches *)

Section NoMatch.

Lemma has_str_from c k s : has c (str_from k s) = true -> has c s = true.
Proof.
  revert k. induction s as [|x s IH]; intros [|k]; simpl; try easy.
  intros H. apply IH in H. rewrite H. apply orb_true_r.
Qed.

Lemma match_drive_slash s n : Re.match_drive s = Some n -> has "/" s = true.
Proof.
  destruct s as [|a [|l [|b rest]]]; simpl; try discriminate.
  destruct (Ascii.eqb a "/"); [reflexivity|discriminate].
Qed.

Lemma match_path_slash root_prefix adv s n :
  Re.match_path (Re.PathRe [] root_prefix) adv s = Some n -> has "/" s = true.
Proof.
  unfold Re.match_path. simpl.
  destruct (String.prefix root_prefix s); [|discriminate].
  destruct (Re.match_drive _) eqn:Hd; [|discriminate].
  intros _. apply match_drive_slash in Hd. now apply has_str_from in Hd.
Qed.

Lemma match_sep_backslash adv s n : Re.match_sep adv s = Some n -> has BS s = true.
Proof.
  unfold Re.match_sep.
  destruct s as [|a [|l [|c [|b rest]]]]; try discriminate.
  destruct (Ascii.eqb b BS) eqn:Hb.
  - intros _. cbn [has]. rewrite Hb. now rewrite !orb_true_r.
  - rewrite andb_false_r. discriminate.
Qed.

Lemma str_replace_absent old new s :
  has old s = false -> str_replace old new s = s.
Proof.
  induction s as [|x s IH]; simpl; [reflexivity|].
  intros H. apply orb_false_iff in H as [Hx Hs].
  now rewrite Hx, IH.
Qed.

End NoMatch.

(** X3. A path without a slash and without a backslash comes back as it is,
    whatever the plain prefix: the test for a Windows path has no slash to
    replace, and neither pattern finds a match. *)
Theorem unix_path_to_win_no_slash (path root_prefix : string) :
  Re.plain root_prefix = true ->
  str_in "/" path = false ->
  str_in (chr BS) path = false ->
  unix_path_to_win path root_prefix = Some (Returned path).
Proof.
  intros Hp Hs Hb.
  change (str_in "/" path) with (str_in (chr "/") path) in Hs.
  rewrite str_in_chr in Hs, Hb.
  unfold unix_path_to_win. destruct (already_windows path).
  - now rewrite str_replace_absent.
  - rewrite (compile_plain _ Hp). rewrite sub_no_match.
    + simpl bind. rewrite sub_no_match; [reflexivity|].
      intros k. destruct (Re.match_sep _ _) eqn:Hm; [|reflexivity].
      apply match_sep_backslash, has_str_from in Hm. congruence.
    + intros k. destruct (Re.match_path _ _ _) eqn:Hm; [|reflexivity].
      apply match_path_slash, has_str_from in Hm. congruence.
Qed.

Lemma unix_path_to_win_no_slash_witness :
  Re.plain "/cygdrive" = true /\
  str_in "/" "C:Program Files:x" = false /\
  str_in (chr BS) "C:Program Files:x" = false /\
  unix_path_to_win "C:Program Files:x" "/cygdrive"
  = Some (Returned "C:Program Files:x").
Proof.
  assert (Hp : Re.plain "/cygdrive" = true) by reflexivity.
  assert (Hs : str_in "/" "C:Program Files:x" = false) by reflexivity.
  assert (Hb : str_in (chr BS) "C:Program Files:x" = false) by reflexivity.
  split; [exact Hp|]. split; [exact Hs|]. split; [exact Hb|].
  exact (unix_path_to_win_no_slash "C:Program Files:x" "/cygdrive" Hp Hs Hb).
Defined.

(** ** Lists of drive paths *)

Section DrivePaths.

Variable root_prefix : string.
Hypothesis prefix_plain : Re.plain root_prefix = true.
Hypothesis prefix_no_colon : has ":" root_prefix = false.

Let m := Re.match_path (Re.PathRe [] root_prefix).
Let T := _translation root_prefix.

Lemma has_append c a b : has c (a +:+ b) = has c a || has c b.
Proof.
  induction a as [|x a IH]; [reflexivity|].
  rewrite append_cons. simpl. now rewrite IH, orb_assoc.
Qed.

Lemma prefix_append a b : String.prefix a (a +:+ b) = true.
Proof.
  induction a as [|x a IH]; [now destruct b|].
  rewrite append_cons. simpl. now destruct (ascii_dec x x).
Qed.

Lemma str_from_append k a b :
  str_from (String.length a + k) (a +:+ b) = str_from k b.
Proof. induction a as [|x a IH]; [reflexivity|]. now rewrite append_cons. Qed.

Lemma str_upto_append a b : str_upto (String.length a) (a +:+ b) = a.
Proof.
  induction a as [|x a IH]; [reflexivity|].
  rewrite append_cons. simpl. now rewrite IH.
Qed.

Lemma get_append k a b :
  String.get (String.length a + k) (a +:+ b) = String.get k b.
Proof. induction a as [|x a IH]; [reflexivity|]. now rewrite append_cons. Qed.

Lemma concat_tail_join sep x l :
  String.concat sep (x :: l) = x +:+ tail_join sep l.
Proof.
  revert x. induction l as [|y l IH]; intros x.
  - simpl. now rewrite append_nil_r.
  - rewrite concat_cons, IH. reflexivity.
Qed.

Lemma follows_tail_join l : follows (tail_join ":" l).
Proof. destruct l; [now left|right]. simpl. eexists. reflexivity. Qed.

Lemma clean_no_colon r : clean r = true -> has ":" r = false.
Proof.
  induction r as [|c r IH]; [reflexivity|].
  simpl. intros H.
  apply andb_true_iff in H as [H Hr]. apply andb_true_iff in H as [H _].
  apply andb_true_iff in H as [Hres _].
  rewrite (IH Hr), orb_false_r.
  unfold Re.reserved in Hres. apply negb_true_iff in Hres.
  repeat (apply orb_false_iff in Hres as [Hres ?]). exact Hres.
Qed.

Lemma clean_no_semicolon r : clean r = true -> has ";" r = false.
Proof.
  induction r as [|c r IH]; [reflexivity|].
  simpl. intros H.
  apply andb_true_iff in H as [H Hr]. apply andb_true_iff in H as [H _].
  apply andb_true_iff in H as [_ Hsemi].
  rewrite (IH Hr), orb_false_r. now apply negb_true_iff in Hsemi.
Qed.

(** The starred group takes a clean text whole. *)
Lemma rest_length_clean r rest :
  clean r = true -> follows rest ->
  Re.rest_length (r +:+ rest) = String.length r.
Proof.
  intros Hc Hf. induction r as [|c r IH].
  - destruct Hf as [->|[rest' ->]]; [reflexivity|].
    change (EmptyString +:+ ?x) with x.
    change (Re.rest_length (String ":" rest'))
      with (if negb (Re.lookahead (String ":" rest')) && false
            then S (Re.rest_length rest') else 0).
    now rewrite andb_false_r.
  - pose proof (clean_no_colon _ Hc) as Hcolon.
    simpl in Hc, Hcolon.
    apply andb_true_iff in Hc as [Hc Hr]. apply andb_true_iff in Hc as [Hc Hsp].
    apply andb_true_iff in Hc as [Hres _].
    apply orb_false_iff in Hcolon as [Hcc _].
    rewrite append_cons.
    change (Re.rest_length (String c (r +:+ rest)))
      with (if negb (Re.lookahead (String c (r +:+ rest))) && negb (Re.reserved c)
            then S (Re.rest_length (r +:+ rest)) else 0).
    rewrite Hres, (IH Hr), andb_true_r.
    assert (Re.lookahead (String c (r +:+ rest)) = false) as ->; [|reflexivity].
    unfold Re.lookahead. rewrite Hcc. simpl orb.
    destruct r as [|d r].
    + destruct Hf as [->|[rest' ->]]; [reflexivity|].
      change (EmptyString +:+ String ":" rest') with (String ":" rest').
      apply andb_false_r.
    + rewrite append_cons. apply negb_true_iff in Hsp.
      simpl in Hsp. destruct (ascii_dec "/" d) as [<-|Hd].
      * destruct r; rewrite andb_false_iff in Hsp;
          destruct Hsp as [->|?]; try discriminate; reflexivity.
      * assert (Ascii.eqb d "/" = false) as ->
            by (apply Ascii.eqb_neq; congruence).
        apply andb_false_r.
Qed.

Lemma unix_drive_path_length item :
  String.length (unix_drive_path root_prefix item)
  = String.length root_prefix + 3 + String.length item.2.
Proof.
  unfold unix_drive_path. rewrite !append_length. simpl. lia.
Qed.

Lemma match_item item rest :
  drive_item item = true -> follows rest ->
  m false (unix_drive_path root_prefix item +:+ rest)
  = Some (String.length (unix_drive_path root_prefix item)).
Proof.
  intros Hi Hf. apply andb_true_iff in Hi as [Hl Hc].
  unfold m, Re.match_path. simpl find. cbv iota. simpl Re.before_group.
  unfold unix_drive_path. rewrite !append_assoc, prefix_append.
  rewrite <- (Nat.add_0_r (String.length root_prefix)) at 1.
  rewrite str_from_append.
  change (str_from 0 ?x) with x.
  change ("/" +:+ chr item.1 +:+ "/" +:+ item.2 +:+ rest)
    with (String "/" (String item.1 (String "/" (item.2 +:+ rest)))).
  unfold Re.match_drive. rewrite Hl. simpl andb. cbv iota.
  rewrite rest_length_clean by assumption.
  f_equal. rewrite !append_length. simpl. lia.
Qed.

Lemma translation_item item :
  T (unix_drive_path root_prefix item) = Returned (win_drive_path item).
Proof.
  unfold T, _translation, str_item, unix_drive_path.
  rewrite get_append, str_from_append. reflexivity.
Qed.

Lemma sub_skip_all mm repl a rest :
  Re.sub mm repl (String.length a) (a +:+ rest) = Re.sub mm repl 0 rest.
Proof. induction a as [|x a IH]; [reflexivity|]. now rewrite append_cons. Qed.

Lemma sub_match_app mm repl x rest r t :
  mm false (x +:+ rest) = Some (String.length x) ->
  0 < String.length x ->
  repl x = Returned r ->
  Re.sub mm repl 0 rest = Returned t ->
  Re.sub mm repl 0 (x +:+ rest) = Returned (r +:+ t).
Proof.
  destruct x as [|c x]; simpl String.length; [lia|].
  intros Hm _ Hr Ht. rewrite append_cons in *.
  rewrite (sub_replace _ _ _ _ _ Hm).
  change (String c (x +:+ rest)) with (String c x +:+ rest).
  change (S (String.length x)) with (String.length (String c x)).
  rewrite str_upto_append, Hr. simpl bind.
  now rewrite sub_skip_all, Ht.
Qed.

Lemma first_item item rest t :
  drive_item item = true -> follows rest ->
  Re.sub m T 0 rest = Returned t ->
  Re.sub m T 0 (unix_drive_path root_prefix item +:+ rest)
  = Returned (win_drive_path item +:+ t).
Proof.
  intros Hi Hf Ht.
  apply sub_match_app; [now apply match_item| |apply translation_item|exact Ht].
  rewrite unix_drive_path_length. lia.
Qed.

Lemma m_none_colon adv rest : m adv (String ":" rest) = None.
Proof.
  unfold m, Re.match_path. simpl find. cbv iota. simpl Re.before_group.
  destruct root_prefix as [|p0 p].
  - simpl. now destruct rest as [|l [|b rest]].
  - simpl in prefix_no_colon. apply orb_false_iff in prefix_no_colon as [Hp0 _].
    simpl. destruct (ascii_dec p0 ":") as [->|_]; [discriminate|reflexivity].
Qed.

Lemma m_none_empty adv : m adv EmptyString = None.
Proof.
  unfold m, Re.match_path. simpl find. cbv iota. simpl Re.before_group.
  now destruct root_prefix.
Qed.

Lemma first_pass_tail items :
  forallb drive_item items = true ->
  Re.sub m T 0 (tail_join ":" (map (unix_drive_path root_prefix) items))
  = Returned (tail_join ":" (map win_drive_path items)).
Proof.
  induction items as [|item items IH]; intros H.
  - simpl. now rewrite m_none_empty.
  - simpl in H. apply andb_true_iff in H as [Hi H].
    cbn [map tail_join].
    change (":" +:+ ?x) with (String ":" x).
    rewrite sub_copy by apply m_none_colon.
    rewrite (first_item _ _ _ Hi (follows_tail_join _) (IH H)).
    reflexivity.
Qed.

(** The second substitution. *)

Lemma match_sep_other adv c rest :
  Ascii.eqb c ":" = false -> Re.match_sep adv (String c rest) = None.
Proof.
  intros Hc. destruct rest as [|l [|c2 [|b rest]]]; try reflexivity.
  unfold Re.match_sep. now rewrite Hc.
Qed.

Lemma sep_copy_no_colon a rest t :
  has ":" a = false ->
  Re.sub Re.match_sep sep_repl 0 rest = Returned t ->
  Re.sub Re.match_sep sep_repl 0 (a +:+ rest) = Returned (a +:+ t).
Proof.
  intros Ha Ht. induction a as [|c a IH]; [exact Ht|].
  simpl in Ha. apply orb_false_iff in Ha as [Hc Ha].
  rewrite append_cons, sub_copy by now apply match_sep_other.
  now rewrite (IH Ha).
Qed.

Lemma letter_no_colon l : Re.is_letter l = true -> Ascii.eqb l ":" = false.
Proof.
  intros Hl. destruct (Ascii.eqb_spec l ":") as [->|]; [discriminate|reflexivity].
Qed.

Lemma win_rest_no_colon r :
  clean r = true -> has ":" (String BS (str_replace "/" BS r)) = false.
Proof.
  intros Hc. simpl. rewrite has_replace by discriminate.
  now apply clean_no_colon.
Qed.

Lemma sep_head item rest t :
  drive_item item = true ->
  Re.sub Re.match_sep sep_repl 0 rest = Returned t ->
  Re.sub Re.match_sep sep_repl 0 (win_drive_path item +:+ rest)
  = Returned (win_drive_path item +:+ t).
Proof.
  intros Hi Ht. apply andb_true_iff in Hi as [Hl Hc].
  unfold win_drive_path.
  change (chr item.1 +:+ ":" +:+ chr BS +:+ ?r)
    with (String item.1 (String ":" (String BS r))).
  rewrite !append_cons.
  rewrite sub_copy by now apply match_sep_other, letter_no_colon.
  rewrite sub_copy.
  - change (String BS (?r +:+ rest)) with (String BS r +:+ rest).
    now rewrite (sep_copy_no_colon _ _ t (win_rest_no_colon _ Hc) Ht).
  - now destruct (str_replace "/" BS item.2 +:+ rest) as [|c [|b s]].
Qed.

Lemma sep_item item rest t :
  drive_item item = true ->
  Re.sub Re.match_sep sep_repl 0 rest = Returned t ->
  Re.sub Re.match_sep sep_repl 0 (":" +:+ win_drive_path item +:+ rest)
  = Returned (";" +:+ win_drive_path item +:+ t).
Proof.
  intros Hi Ht. apply andb_true_iff in Hi as [Hl Hc].
  unfold win_drive_path.
  change (":" +:+ (chr item.1 +:+ ":" +:+ chr BS +:+ ?r) +:+ rest)
    with (String ":" (String item.1 (String ":" (String BS (r +:+ rest))))).
  rewrite (sub_replace _ _ 3).
  - change (sep_repl _) with (Returned (";" +:+ chr item.1 +:+ ":" +:+ chr BS)).
    cbn [bind]. rewrite !sub_skip.
    rewrite (sep_copy_no_colon _ _ t); [reflexivity| |exact Ht].
    rewrite has_replace by discriminate. now apply clean_no_colon.
  - unfold Re.match_sep. now rewrite Hl, Ascii.eqb_refl.
Qed.

Lemma second_pass_tail items :
  forallb drive_item items = true ->
  Re.sub Re.match_sep sep_repl 0 (tail_join ":" (map win_drive_path items))
  = Returned (tail_join ";" (map win_drive_path items)).
Proof.
  induction items as [|item items IH]; intros H; [reflexivity|].
  simpl in H. apply andb_true_iff in H as [Hi H].
  cbn [map tail_join].
  exact (sep_item _ _ _ Hi (IH H)).
Qed.

End DrivePaths.

Section DriveLists.

Lemma has_unix_drive_path c root_prefix item :
  has c (unix_drive_path root_prefix item)
  = has c root_prefix || Ascii.eqb "/" c || Ascii.eqb item.1 c
    || Ascii.eqb "/" c || has c item.2.
Proof.
  unfold unix_drive_path. rewrite !has_append. simpl.
  now rewrite !orb_false_r, !orb_assoc.
Qed.

Lemma no_semicolon_tail root_prefix items :
  has ";" root_prefix = false ->
  forallb drive_item items = true ->
  has ";" (tail_join ":" (map (unix_drive_path root_prefix) items)) = false.
Proof.
  intros Hp. induction items as [|item items IH]; intros H; [reflexivity|].
  simpl in H. apply andb_true_iff in H as [Hi H].
  cbn [map tail_join]. rewrite !has_append, (IH H), orb_false_r.
  apply andb_true_iff in Hi as [Hl Hc].
  rewrite has_unix_drive_path, Hp, (clean_no_semicolon _ Hc).
  destruct (Ascii.eqb_spec item.1 ";") as [He|]; [|reflexivity].
  rewrite He in Hl. discriminate.
Qed.

Lemma not_windows_list root_prefix item items :
  has ";" root_prefix = false ->
  has ":" root_prefix = false ->
  forallb drive_item (item :: items) = true ->
  already_windows
    (unix_drive_path root_prefix item
     +:+ tail_join ":" (map (unix_drive_path root_prefix) items))
  = false.
Proof.
  intros Hs Hc H. simpl in H. apply andb_true_iff in H as [Hi H].
  unfold already_windows.
  rewrite str_in_semicolon, has_append, (no_semicolon_tail _ _ Hs H), orb_false_r.
  apply andb_true_iff in Hi as [Hl Hcl].
  assert (has ";" (unix_drive_path root_prefix item) = false) as ->.
  { rewrite has_unix_drive_path, Hs, (clean_no_semicolon _ Hcl).
    destruct (Ascii.eqb_spec item.1 ";") as [He|]; [|reflexivity].
    rewrite He in Hl. discriminate. }
  simpl orb.
  assert (match String.get 1 (unix_drive_path root_prefix item
                 +:+ tail_join ":" (map (unix_drive_path root_prefix) items))
          with Some c => Ascii.eqb c ":" | None => false end = false) as ->;
    [|apply andb_false_r].
  unfold unix_drive_path. rewrite !append_assoc.
  destruct root_prefix as [|p0 [|p1 p]].
  - simpl. now apply letter_no_colon.
  - reflexivity.
  - simpl in Hc. apply orb_false_iff in Hc as [_ Hc].
    apply orb_false_iff in Hc as [Hc _]. simpl. exact Hc.
Qed.

End DriveLists.

Lemma drive_list_translated (root_prefix : string)
    (items : list (ascii * string)) :
  Re.plain root_prefix = true ->
  str_in ";" root_prefix = false ->
  str_in ":" root_prefix = false ->
  forallb drive_item items = true ->
  unix_path_to_win (str_join ":" (map (unix_drive_path root_prefix) items))
                   root_prefix
  = Some (Returned (str_join ";" (map win_drive_path items))).
Proof.
  intros Hp Hs Hc Hi.
  rewrite str_in_semicolon in Hs.
  change (str_in ":" root_prefix) with (str_in (chr ":") root_prefix) in Hc.
  rewrite str_in_chr in Hc.
  unfold str_join. destruct items as [|item items].
  - apply unix_path_to_win_short; [exact Hp|simpl; lia|reflexivity].
  - cbn [map]. rewrite !concat_tail_join.
    unfold unix_path_to_win.
    rewrite (not_windows_list _ _ _ Hs Hc Hi), (compile_plain _ Hp).
    simpl in Hi. apply andb_true_iff in Hi as [Hitem Hitems].
    rewrite (first_item root_prefix item _ _ Hitem (follows_tail_join _)
               (first_pass_tail root_prefix Hp Hc items Hitems)).
    cbn [bind].
    now rewrite (sep_head item _ _ Hitem (second_pass_tail items Hitems)).
Qed.

(** X4. A list of drive paths in the POSIX style, joined by colons, becomes
    the list of the same paths in the Windows style, joined by semicolons:
    each path loses the prefix, its drive letter comes before a colon, and
    its slashes become backslashes.  The prefix is plain and holds no colon
    and no semicolon; each letter is a letter, and each rest is clean. *)
Theorem unix_path_to_win_list (root_prefix : string)
    (items : list (ascii * string)) :
  Re.plain root_prefix = true ->
  str_in ";" root_prefix = false ->
  str_in ":" root_prefix = false ->
  forallb drive_item items = true ->
  unix_path_to_win (str_join ":" (map (unix_drive_path root_prefix) items))
                   root_prefix
  = Some (Returned (str_join ";" (map win_drive_path items))).
Proof. apply drive_list_translated. Qed.

Lemma unix_path_to_win_list_witness :
  Re.plain EmptyString = true /\
  str_in ";" EmptyString = false /\
  str_in ":" EmptyString = false /\
  forallb drive_item [("c"%char, "Program Files/x"); ("D"%char, "y")] = true /\
  unix_path_to_win
    (str_join ":" (map (unix_drive_path EmptyString)
                       [("c"%char, "Program Files/x"); ("D"%char, "y")]))
    EmptyString
  = Some (Returned (str_join ";" (map win_drive_path
                       [("c"%char, "Program Files/x"); ("D"%char, "y")]))).
Proof.
  assert (H1 : Re.plain EmptyString = true) by reflexivity.
  assert (H2 : str_in ";" EmptyString = false) by reflexivity.
  assert (H3 : str_in ":" EmptyString = false) by reflexivity.
  assert (H4 : forallb drive_item
                 [("c"%char, "Program Files/x"); ("D"%char, "y")] = true)
    by reflexivity.
  split; [exact H1|]. split; [exact H2|]. split; [exact H3|]. split; [exact H4|].
  exact (unix_path_to_win_list EmptyString _ H1 H2 H3 H4).
Defined.

(** X5. [cygwin_path_to_win] on a list of drive paths under /cygdrive: the
    result is the list of the Windows paths, without /cygdrive. *)
Theorem cygwin_path_to_win_list (items : list (ascii * string)) :
  forallb drive_item items = true ->
  cygwin_path_to_win (str_join ":" (map (unix_drive_path "/cygdrive") items))
  = Some (Returned (str_join ";" (map win_drive_path items))).
Proof.
  intros Hi. unfold cygwin_path_to_win.
  now apply drive_list_translated.
Qed.

Lemma cygwin_path_to_win_list_witness :
  forallb drive_item [("c"%char, "Users/x")] = true /\
  cygwin_path_to_win "/cygdrive/c/Users/x"
  = Some (Returned ("c:" +:+ chr BS +:+ "Users" +:+ chr BS +:+ "x")).
Proof.
  assert (H : forallb drive_item [("c"%char, "Users/x")] = true) by reflexivity.
  split; [exact H|].
  exact (cygwin_path_to_win_list [("c"%char, "Users/x")] H).
Defined.

(** ** Streams of lines *)

Section Streams.

Lemma str_split_not_nil sep s : str_split sep s <> [].
Proof.
  destruct s as [|c s]; simpl; [discriminate|].
  destruct (Ascii.eqb c sep); [discriminate|].
  destruct (str_split sep s); discriminate.
Qed.

(** Joining what [split] returns gives the text back. *)
Lemma join_split sep s : str_join (chr sep) (str_split sep s) = s.
Proof.
  unfold str_join. induction s as [|c s IH]; [reflexivity|].
  simpl str_split. destruct (Ascii.eqb_spec c sep) as [->|Hc].
  - pose proof (str_split_not_nil sep s) as Hn.
    destruct (str_split sep s) as [|x l] eqn:Hl; [contradiction|].
    rewrite concat_cons, IH. reflexivity.
  - pose proof (str_split_not_nil sep s) as Hn.
    destruct (str_split sep s) as [|x l] eqn:Hl; [contradiction|].
    rewrite <- IH. destruct l; reflexivity.
Qed.

Lemma str_split_no_sep sep x : has sep x = false -> str_split sep x = [x].
Proof.
  induction x as [|c x IH]; [reflexivity|].
  simpl. intros H. apply orb_false_iff in H as [Hc Hx].
  now rewrite Hc, (IH Hx).
Qed.

Lemma str_split_app sep x rest :
  has sep x = false ->
  str_split sep (x +:+ String sep rest) = x :: str_split sep rest.
Proof.
  induction x as [|c x IH]; intros H.
  - change (EmptyString +:+ ?t) with t. simpl. now rewrite Ascii.eqb_refl.
  - simpl in H. apply orb_false_iff in H as [Hc Hx].
    rewrite append_cons. simpl. now rewrite Hc, (IH Hx).
Qed.

(** Splitting a join of texts without the separator gives the texts back. *)
Lemma split_join sep l :
  l <> [] -> Forall (fun x => has sep x = false) l ->
  str_split sep (str_join (chr sep) l) = l.
Proof.
  unfold str_join. induction l as [|x [|y l] IH]; intros Hn Hl; [contradiction| |].
  - inversion Hl; subst. now apply str_split_no_sep.
  - inversion Hl; subst. rewrite concat_cons.
    change (chr sep +:+ ?t) with (String sep t).
    rewrite str_split_app by assumption.
    now rewrite IH.
Qed.

Lemma each_returned {A B : Type} (translator : A -> outcome B) (f : A -> B) l :
  Forall (fun x => translator x = Returned (f x)) l ->
  each translator l = Returned (map f l).
Proof.
  induction 1 as [|x l Hx _ IH]; [reflexivity|].
  simpl. now rewrite Hx, IH.
Qed.

Lemma each_raised {A B : Type} (translator : A -> outcome B) before x after e :
  Forall (fun y => exists r, translator y = Returned r) before ->
  translator x = Raised e ->
  each translator (before ++ x :: after) = Raised e.
Proof.
  induction 1 as [|y before [r Hy] _ IH]; intros Hx; simpl.
  - now rewrite Hx.
  - now rewrite Hy, IH.
Qed.

End Streams.

(** X6. [translate_stream] with the identity as translator returns the
    stream as it is: the lines joined again are the text that was split. *)
Theorem translate_stream_identity (stream : string) :
  translate_stream stream (fun line => Returned (path_identity line))
  = Returned stream.
Proof.
  unfold translate_stream.
  rewrite (each_returned _ path_identity) by (apply Forall_forall; reflexivity).
  simpl bind. rewrite map_id. now rewrite join_split.
Qed.

Lemma stream_lines_translated (stream : string)
    (translator : string -> outcome string) (f : string -> string) :
  Forall (fun line => translator line = Returned (f line)
                      /\ str_in (chr NL) (f line) = false)
         (str_split NL stream) ->
  exists result,
    translate_stream stream translator = Returned result /\
    str_split NL result = map f (str_split NL stream).
Proof.
  intros H. unfold translate_stream.
  rewrite (each_returned translator f).
  - simpl bind. eexists. split; [reflexivity|].
    apply split_join.
    + pose proof (str_split_not_nil NL stream). now destruct (str_split NL stream).
    + apply Forall_map. eapply Forall_impl; [exact H|].
      intros line [_ Hn]. now rewrite str_in_chr in Hn.
  - eapply Forall_impl; [exact H|]. now intros line [Hr _].
Qed.

(** X7. When the translator returns on every line of the stream a text
    without a line feed, [translate_stream] returns, and the lines of its
    result are the translations of the lines of the stream, one for one and
    in order. *)
Theorem translate_stream_lines (stream : string)
    (translator : string -> outcome string) (f : string -> string) :
  Forall (fun line => translator line = Returned (f line)
                      /\ str_in (chr NL) (f line) = false)
         (str_split NL stream) ->
  exists result,
    translate_stream stream translator = Returned result /\
    str_split NL result = map f (str_split NL stream).
Proof. apply stream_lines_translated. Qed.

Lemma translate_stream_lines_witness :
  Forall (fun line => Returned (str_replace "/" BS line)
                      = Returned (str_replace "/" BS line)
                      /\ str_in (chr NL) (str_replace "/" BS line) = false)
         (str_split NL ("a/b" +:+ chr NL +:+ "c")) /\
  exists result,
    translate_stream ("a/b" +:+ chr NL +:+ "c")
      (fun line => Returned (str_replace "/" BS line)) = Returned result /\
    str_split NL result
    = map (str_replace "/" BS) (str_split NL ("a/b" +:+ chr NL +:+ "c")).
Proof.
  assert (H : Forall (fun line => Returned (str_replace "/" BS line)
                                  = Returned (str_replace "/" BS line)
                                  /\ str_in (chr NL) (str_replace "/" BS line) = false)
                     (str_split NL ("a/b" +:+ chr NL +:+ "c"))).
  { repeat constructor. }
  split; [exact H|].
  exact (translate_stream_lines _ (fun line => Returned (str_replace "/" BS line))
           (str_replace "/" BS) H).
Defined.

(** X8. When the translator raises on a line of the stream and returns on
    the lines before it, [translate_stream] raises the same exception. *)
Theorem translate_stream_raises (stream : string)
    (translator : string -> outcome string)
    (before after : list string) (line : string) (e : exn) :
  str_split NL stream = before ++ line :: after ->
  Forall (fun l => exists r, translator l = Returned r) before ->
  translator line = Raised e ->
  translate_stream stream translator = Raised e.
Proof.
  intros Hs Hb Hl. unfold translate_stream.
  now rewrite Hs, (each_raised _ _ _ _ _ Hb Hl).
Qed.

Lemma translate_stream_raises_witness :
  str_split NL ("ab" +:+ chr NL +:+ "c") = ["ab"] ++ "c" :: [] /\
  Forall (fun l => exists r, second_char l = Returned r) ["ab"] /\
  second_char "c" = Raised IndexError /\
  translate_stream ("ab" +:+ chr NL +:+ "c") second_char = Raised IndexError.
Proof.
  assert (H1 : str_split NL ("ab" +:+ chr NL +:+ "c") = ["ab"] ++ "c" :: [])
    by reflexivity.
  assert (H2 : Forall (fun l => exists r, second_char l = Returned r) ["ab"]).
  { repeat constructor. eexists. reflexivity. }
  assert (H3 : second_char "c" = Raised IndexError) by reflexivity.
  split; [exact H1|]. split; [exact H2|]. split; [exact H3|].
  exact (translate_stream_raises _ second_char ["ab"] [] "c" IndexError H1 H2 H3).
Defined.

(** X9. Translating a stream twice is translating it once with the two
    translators composed, when the first returns on every line a text
    without a line feed. *)
Theorem translate_stream_compose (stream : string)
    (translator : string -> outcome string) (f : string -> string)
    (second : string -> outcome string) :
  Forall (fun line => translator line = Returned (f line)
                      /\ str_in (chr NL) (f line) = false)
         (str_split NL stream) ->
  bind (translate_stream stream translator)
       (fun result => translate_stream result second)
  = translate_stream stream (fun line => bind (translator line) second).
Proof.
  intros H.
  destruct (stream_lines_translated stream translator f H) as (result & -> & Hr).
  simpl bind. unfold translate_stream. rewrite Hr. f_equal.
  clear Hr. induction H as [|line lines [Hl _] _ IH]; [reflexivity|].
  simpl. rewrite Hl. simpl bind. now rewrite IH.
Qed.

Lemma translate_stream_compose_witness :
  Forall (fun line => Returned (str_replace "/" BS line)
                      = Returned (str_replace "/" BS line)
                      /\ str_in (chr NL) (str_replace "/" BS line) = false)
         (str_split NL ("a/b" +:+ chr NL +:+ "c")) /\
  bind (translate_stream ("a/b" +:+ chr NL +:+ "c")
          (fun line => Returned (str_replace "/" BS line)))
       (fun result => translate_stream result
                        (fun line => Returned (str_replace "a" "A" line)))
  = translate_stream ("a/b" +:+ chr NL +:+ "c")
      (fun line => bind (Returned (str_replace "/" BS line))
                        (fun line => Returned (str_replace "a" "A" line))).
Proof.
  assert (H : Forall (fun line => Returned (str_replace "/" BS line)
                                  = Returned (str_replace "/" BS line)
                                  /\ str_in (chr NL) (str_replace "/" BS line) = false)
                     (str_split NL ("a/b" +:+ chr NL +:+ "c"))).
  { repeat constructor. }
  split; [exact H|].
  exact (translate_stream_compose _ (fun line => Returned (str_replace "/" BS line))
           (str_replace "/" BS)
           (fun line => Returned (str_replace "a" "A" line)) H).
Defined.

(** ** The registry as a whole *)

(** The entry of a name in the registry, by the insertions that built it. *)
Ltac registry_entry :=
  unfold shells, display; cbn [fold_left fst snd];
  repeat (rewrite lookup_insert_ne by discriminate);
  apply lookup_insert_eq.

Section Registry.

Ltac pick_entry :=
  first [ split; [reflexivity|reflexivity]
        | left; split; [reflexivity|reflexivity]
        | right; pick_entry ].

Ltac by_evaluation := apply (bool_decide_unpack _); vm_compute; exact I.

Lemma shells_posix_entries name d :
  shells false !! name = Some d ->
  (name = "bash" /\ d = dict unix_shell_base [("exe", Str "bash")]) \/
  (name = "dash" /\
   d = dict unix_shell_base [("exe", Str "dash"); ("source_setup", Str ".")]) \/
  (name = "zsh" /\ d = dict unix_shell_base [("exe", Str "zsh")]) \/
  (name = "fish" /\
   d = dict unix_shell_base [("exe", Str "fish"); ("pathsep", Str " ")]).
Proof.
  unfold shells, display. cbn [fold_left fst snd]. intros H.
  repeat (apply lookup_insert_Some in H as [[<- <-]|[? H]]; [pick_entry|]).
  now rewrite lookup_empty in H.
Qed.

Lemma shells_windows_entries name d :
  shells true !! name = Some d ->
  (name = "cmd.exe" /\ d = cmd_exe) \/
  (name = "cygwin" /\
   d = dict unix_shell_base
         [("exe", Str "bash.exe"); ("binpath", Str "/Scripts/");
          ("path_from", Fn CygwinPathToWin); ("path_to", Fn WinPathToCygwin)]) \/
  (In name ["bash.exe"; "bash"; "sh.exe"; "zsh.exe"; "zsh"] /\
   d = dict msys2_shell_base [("exe", Str name)]).
Proof.
  unfold shells, display. cbn [fold_left fst snd]. intros H.
  repeat (apply lookup_insert_Some in H as [[<- <-]|[? H]];
          [first [ left; split; [reflexivity|reflexivity]
                 | right; left; split; [reflexivity|reflexivity]
                 | right; right; split; [simpl; tauto|reflexivity] ]|]).
  now rewrite lookup_empty in H.
Qed.

(** A map with as many entries as there are keys in a list without
    repetition, and with each key of the list, has the keys of the list. *)
Lemma dom_of_keys (d : gmap string value) (keys : list string) :
  NoDup keys -> size d = length keys ->
  Forall (fun k => is_Some (d !! k)) keys ->
  dom d = list_to_set keys.
Proof.
  intros Hnd Hsize Hall. symmetry.
  apply set_subseteq_size_eq.
  - intros k Hk. apply elem_of_list_to_set in Hk. apply elem_of_dom.
    rewrite Forall_forall in Hall. now apply Hall.
  - rewrite size_dom, size_list_to_set by exact Hnd. lia.
Qed.

Lemma dialect_keys_nodup : NoDup dialect_keys.
Proof. by_evaluation. Qed.

Lemma posix_dialect_keys kwargs :
  In kwargs [ [("exe", Str "bash")];
              [("exe", Str "dash"); ("source_setup", Str ".")];
              [("exe", Str "zsh")];
              [("exe", Str "fish"); ("pathsep", Str " ")];
              [("exe", Str "bash.exe"); ("binpath", Str "/Scripts/");
               ("path_from", Fn CygwinPathToWin);
               ("path_to", Fn WinPathToCygwin)] ] ->
  dom (dict unix_shell_base kwargs) = list_to_set dialect_keys.
Proof.
  intros H. simpl in H.
  repeat (destruct H as [<-|H];
          [apply dom_of_keys;
           [exact dialect_keys_nodup|vm_compute; reflexivity|by_evaluation]|]).
  contradiction.
Qed.

Lemma msys2_dialect_keys name :
  In name ["bash.exe"; "bash"; "sh.exe"; "zsh.exe"; "zsh"] ->
  dom (dict msys2_shell_base [("exe", Str name)]) = list_to_set dialect_keys.
Proof.
  intros H. simpl in H.
  repeat (destruct H as [<-|H];
          [apply dom_of_keys;
           [exact dialect_keys_nodup|vm_compute; reflexivity|by_evaluation]|]).
  contradiction.
Qed.

Lemma cmd_exe_keys : dom cmd_exe = list_to_set dialect_keys.
Proof.
  apply dom_of_keys;
    [exact dialect_keys_nodup|vm_compute; reflexivity|by_evaluation].
Qed.

End Registry.

(** X10. Every dialect of the registry, on either host, has the same twenty
    keys. *)
Theorem dialects_have_all_keys (on_win : bool) (name : string)
    (d : gmap string value) :
  shells on_win !! name = Some d ->
  dom d = list_to_set dialect_keys.
Proof.
  intros H. destruct on_win.
  - apply shells_windows_entries in H as [[_ ->]|[[_ ->]|[Hn ->]]].
    + exact cmd_exe_keys.
    + apply posix_dialect_keys. simpl. tauto.
    + now apply msys2_dialect_keys.
  - apply shells_posix_entries in H as [[_ ->]|[[_ ->]|[[_ ->]|[_ ->]]]];
      apply posix_dialect_keys; simpl; tauto.
Qed.

Lemma dialects_have_all_keys_witness :
  shells true !! "cmd.exe" = Some cmd_exe /\
  dom cmd_exe = list_to_set dialect_keys.
Proof.
  assert (H : shells true !! "cmd.exe" = Some cmd_exe) by registry_entry.
  split; [exact H|].
  exact (dialects_have_all_keys true "cmd.exe" cmd_exe H).
Defined.

Section RegistryEntries.

Ltac by_evaluation := apply (bool_decide_unpack _); vm_compute; exact I.

Lemma dict1 base k v : dict base [(k, v)] = <[k := v]> base.
Proof. reflexivity. Qed.

Lemma dict2 base k1 v1 k2 v2 :
  dict base [(k1, v1); (k2, v2)] = <[k2 := v2]> (<[k1 := v1]> base).
Proof. reflexivity. Qed.

Lemma dict4 base k1 v1 k2 v2 k3 v3 k4 v4 :
  dict base [(k1, v1); (k2, v2); (k3, v3); (k4, v4)]
  = <[k4 := v4]> (<[k3 := v3]> (<[k2 := v2]> (<[k1 := v1]> base))).
Proof. reflexivity. Qed.

(** The base of the MSYS2 shells against the POSIX base: the two path
    converters and the command that prints the path differ. *)
Lemma msys2_against_unix key :
  key <> "path_from" -> key <> "path_to" -> key <> "printpath" ->
  msys2_shell_base !! key = unix_shell_base !! key.
Proof.
  intros H1 H2 H3. unfold msys2_shell_base. rewrite dict4.
  rewrite lookup_insert_ne by congruence.
  destruct (decide (key = "binpath")) as [->|Hb].
  - rewrite lookup_insert_eq. vm_compute. reflexivity.
  - now rewrite !lookup_insert_ne by congruence.
Qed.

Lemma names_posix name :
  In name (dialect_names false) -> is_Some (shells false !! name).
Proof.
  unfold dialect_names. cbn [In]. intros H.
  repeat (destruct H as [<-|H]; [eexists; registry_entry|]). contradiction.
Qed.

Lemma names_windows name :
  In name (dialect_names true) -> is_Some (shells true !! name).
Proof.
  unfold dialect_names. cbn [In]. intros H.
  repeat (destruct H as [<-|H]; [eexists; registry_entry|]). contradiction.
Qed.

End RegistryEntries.

(** X11. The registry of a host has the names of [dialect_names] and no
    other: four on a POSIX host, seven on a Windows host.  The exe of a
    dialect is its name, but for cygwin, whose exe is bash.exe. *)
Theorem dialect_names_and_exe (on_win : bool) (name : string) :
  (is_Some (shells on_win !! name) <-> In name (dialect_names on_win)) /\
  (forall d : gmap string value,
      shells on_win !! name = Some d ->
      d !! "exe"
      = Some (Str (if String.eqb name "cygwin" then "bash.exe" else name))).
Proof.
  split.
  - split.
    + intros [d H]. destruct on_win.
      * apply shells_windows_entries in H as [[-> _]|[[-> _]|[Hn _]]];
          simpl in *; tauto.
      * apply shells_posix_entries in H as [[-> _]|[[-> _]|[[-> _]|[-> _]]]];
          simpl; tauto.
    + destruct on_win; [apply names_windows|apply names_posix].
  - intros d H. destruct on_win.
    + apply shells_windows_entries in H as [[-> ->]|[[-> ->]|[Hn ->]]].
      * vm_compute. reflexivity.
      * vm_compute. reflexivity.
      * rewrite dict1, lookup_insert_eq. simpl in Hn.
        repeat (destruct Hn as [<-|Hn]; [reflexivity|]). contradiction.
    + apply shells_posix_entries in H as [[-> ->]|[[-> ->]|[[-> ->]|[-> ->]]]];
        vm_compute; reflexivity.
Qed.

(** X12. In every dialect the second part of slash_convert is the sep of
    the dialect and the first part is the other slash.  The two path
    converters of a dialect are both the identity on a POSIX host and for
    cmd.exe, cygwin_path_to_win with win_path_to_cygwin for cygwin, and
    unix_path_to_win with win_path_to_unix for the other dialects of a
    Windows host. *)
Theorem dialect_fields_agree (on_win : bool) (name : string)
    (d : gmap string value) :
  shells on_win !! name = Some d ->
  (exists other sep : string,
      d !! "sep" = Some (Str sep) /\
      d !! "slash_convert" = Some (Pair other sep) /\
      ((sep = "/" /\ other = chr BS) \/ (sep = chr BS /\ other = "/"))) /\
  (exists f g : converter,
      d !! "path_from" = Some (Fn f) /\
      d !! "path_to" = Some (Fn g) /\
      ((on_win = false /\ f = PathIdentity /\ g = PathIdentity) \/
       (on_win = true /\ name = "cmd.exe" /\
        f = PathIdentity /\ g = PathIdentity) \/
       (on_win = true /\ name = "cygwin" /\
        f = CygwinPathToWin /\ g = WinPathToCygwin) \/
       (on_win = true /\
        In name ["bash.exe"; "bash"; "sh.exe"; "zsh.exe"; "zsh"] /\
        f = UnixPathToWin /\ g = WinPathToUnix))).
Proof.
  intros H. destruct on_win.
  - apply shells_windows_entries in H as [[-> ->]|[[-> ->]|[Hn ->]]].
    + split.
      * exists "/", (chr BS). repeat split; try (vm_compute; reflexivity). now right.
      * exists PathIdentity, PathIdentity.
        split; [vm_compute; reflexivity|]. split; [vm_compute; reflexivity|].
        right. left. repeat split.
    + split.
      * exists (chr BS), "/". repeat split; try (vm_compute; reflexivity). now left.
      * exists CygwinPathToWin, WinPathToCygwin.
        split; [vm_compute; reflexivity|]. split; [vm_compute; reflexivity|].
        right. right. left. repeat split.
    + rewrite dict1. split.
      * exists (chr BS), "/".
        rewrite !lookup_insert_ne by discriminate.
        repeat split; try (vm_compute; reflexivity). now left.
      * exists UnixPathToWin, WinPathToUnix.
        rewrite !lookup_insert_ne by discriminate.
        split; [vm_compute; reflexivity|]. split; [vm_compute; reflexivity|].
        right. right. right. repeat split. exact Hn.
  - apply shells_posix_entries in H as [[_ ->]|[[_ ->]|[[_ ->]|[_ ->]]]];
      (split;
       [exists (chr BS), "/"; repeat split; try (vm_compute; reflexivity); now left
       |exists PathIdentity, PathIdentity;
        split; [vm_compute; reflexivity|]; split; [vm_compute; reflexivity|];
        left; repeat split]).
Qed.

Lemma dialect_fields_agree_witness :
  shells true !! "cygwin" = Some (dict unix_shell_base
                                    [("exe", Str "bash.exe");
                                     ("binpath", Str "/Scripts/");
                                     ("path_from", Fn CygwinPathToWin);
                                     ("path_to", Fn WinPathToCygwin)]) /\
  exists f g : converter,
    dict unix_shell_base
      [("exe", Str "bash.exe"); ("binpath", Str "/Scripts/");
       ("path_from", Fn CygwinPathToWin); ("path_to", Fn WinPathToCygwin)]
      !! "path_from" = Some (Fn f) /\
    dict unix_shell_base
      [("exe", Str "bash.exe"); ("binpath", Str "/Scripts/");
       ("path_from", Fn CygwinPathToWin); ("path_to", Fn WinPathToCygwin)]
      !! "path_to" = Some (Fn g) /\
    ((true = false /\ f = PathIdentity /\ g = PathIdentity) \/
     (true = true /\ "cygwin" = "cmd.exe" /\
      f = PathIdentity /\ g = PathIdentity) \/
     (true = true /\ "cygwin" = "cygwin" /\
      f = CygwinPathToWin /\ g = WinPathToCygwin) \/
     (true = true /\
      In "cygwin" ["bash.exe"; "bash"; "sh.exe"; "zsh.exe"; "zsh"] /\
      f = UnixPathToWin /\ g = WinPathToUnix)).
Proof.
  assert (H : shells true !! "cygwin"
              = Some (dict unix_shell_base
                        [("exe", Str "bash.exe"); ("binpath", Str "/Scripts/");
                         ("path_from", Fn CygwinPathToWin);
                         ("path_to", Fn WinPathToCygwin)])) by registry_entry.
  split; [exact H|].
  exact (proj2 (dialect_fields_agree true "cygwin" _ H)).
Defined.

(** X13. On a POSIX host every dialect is the POSIX base at every key but
    exe, source_setup for dash and pathsep for fish. *)
Theorem posix_dialects_from_base (name key : string) (d : gmap string value) :
  shells false !! name = Some d ->
  key <> "exe" ->
  ~ (name = "dash" /\ key = "source_setup") ->
  ~ (name = "fish" /\ key = "pathsep") ->
  d !! key = unix_shell_base !! key.
Proof.
  intros H He Hdash Hfish.
  apply shells_posix_entries in H as [[-> ->]|[[-> ->]|[[-> ->]|[-> ->]]]].
  - rewrite dict1. now rewrite lookup_insert_ne by congruence.
  - rewrite dict2.
    rewrite lookup_insert_ne by (intros <-; apply Hdash; now split).
    now rewrite lookup_insert_ne by congruence.
  - rewrite dict1. now rewrite lookup_insert_ne by congruence.
  - rewrite dict2.
    rewrite lookup_insert_ne by (intros <-; apply Hfish; now split).
    now rewrite lookup_insert_ne by congruence.
Qed.

Lemma posix_dialects_from_base_witness :
  shells false !! "fish"
  = Some (dict unix_shell_base [("exe", Str "fish"); ("pathsep", Str " ")]) /\
  "source_setup" <> "exe" /\
  ~ ("fish" = "dash" /\ "source_setup" = "source_setup") /\
  ~ ("fish" = "fish" /\ "source_setup" = "pathsep") /\
  dict unix_shell_base [("exe", Str "fish"); ("pathsep", Str " ")] !! "source_setup"
  = unix_shell_base !! "source_setup".
Proof.
  assert (H1 : shells false !! "fish"
               = Some (dict unix_shell_base
                         [("exe", Str "fish"); ("pathsep", Str " ")]))
    by registry_entry.
  assert (H2 : "source_setup" <> "exe") by discriminate.
  assert (H3 : ~ ("fish" = "dash" /\ "source_setup" = "source_setup"))
    by (intros [? _]; discriminate).
  assert (H4 : ~ ("fish" = "fish" /\ "source_setup" = "pathsep"))
    by (intros [_ ?]; discriminate).
  split; [exact H1|]. split; [exact H2|]. split; [exact H3|]. split; [exact H4|].
  exact (posix_dialects_from_base "fish" "source_setup" _ H1 H2 H3 H4).
Defined.

(** X14. On a Windows host the dialects other than cmd.exe are the POSIX
    base but for a few keys: cygwin at every key but exe, binpath, path_from
    and path_to; the five MSYS2 shells at every key but exe, path_from,
    path_to and printpath. *)
Theorem windows_dialects_from_base (name key : string) (d : gmap string value) :
  shells true !! name = Some d ->
  name <> "cmd.exe" ->
  key <> "exe" -> key <> "path_from" -> key <> "path_to" ->
  (if String.eqb name "cygwin" then key <> "binpath" else key <> "printpath") ->
  d !! key = unix_shell_base !! key.
Proof.
  intros H Hcmd He Hf Ht Hk.
  apply shells_windows_entries in H as [[-> _]|[[-> ->]|[Hn ->]]].
  - contradiction.
  - simpl in Hk. rewrite dict4. now rewrite !lookup_insert_ne by congruence.
  - assert (String.eqb name "cygwin" = false) as Hc.
    { simpl in Hn. repeat (destruct Hn as [<-|Hn]; [reflexivity|]). contradiction. }
    rewrite Hc in Hk. rewrite dict1, lookup_insert_ne by congruence.
    now apply msys2_against_unix.
Qed.

Lemma windows_dialects_from_base_witness :
  shells true !! "zsh" = Some (dict msys2_shell_base [("exe", Str "zsh")]) /\
  "zsh" <> "cmd.exe" /\
  "binpath" <> "exe" /\ "binpath" <> "path_from" /\ "binpath" <> "path_to" /\
  (if String.eqb "zsh" "cygwin" then "binpath" <> "binpath"
   else "binpath" <> "printpath") /\
  dict msys2_shell_base [("exe", Str "zsh")] !! "binpath"
  = unix_shell_base !! "binpath".
Proof.
  assert (H1 : shells true !! "zsh"
               = Some (dict msys2_shell_base [("exe", Str "zsh")]))
    by registry_entry.
  assert (H2 : "zsh" <> "cmd.exe") by discriminate.
  assert (H3 : "binpath" <> "exe") by discriminate.
  assert (H4 : "binpath" <> "path_from") by discriminate.
  assert (H5 : "binpath" <> "path_to") by discriminate.
  assert (H6 : if String.eqb "zsh" "cygwin" then "binpath" <> "binpath"
               else "binpath" <> "printpath") by (simpl; discriminate).
  split; [exact H1|]. split; [exact H2|]. split; [exact H3|].
  split; [exact H4|]. split; [exact H5|]. split; [exact H6|].
  exact (windows_dialects_from_base "zsh" "binpath" _ H1 H2 H3 H4 H5 H6).
Defined.

(** ** The wrapper script: what a call touches and what it reads *)

(** X15. A call of [wrap_subprocess_call] that returns is a call for POSIX:
    it has written one file, the script whose name it returns and whose
    name ends the command vector after the shell and -x; every other file
    and the environment are as before.  A call that raises leaves the
    environment as it was and all files but at most one. *)
Theorem wrap_writes_one_file (h : host) (w : world) (on_win_arg : bool)
    (root_prefix prefix : string) (dev_mode debug : bool)
    (arguments : list string) :
  match wrap_subprocess_call h w on_win_arg root_prefix prefix dev_mode debug
          arguments with
  | (Returned (script_caller, command_args), w') =>
      on_win_arg = false /\
      command_args
      = [if str_in "bsd" (sys_platform h) then "sh" else "bash"; "-x";
         script_caller] /\
      is_Some (files w' !! script_caller) /\
      (forall name, name <> script_caller -> files w' !! name = files w !! name) /\
      environ w' = environ w
  | (Raised e, w') =>
      environ w' = environ w /\
      exists touched,
        forall name, name <> touched -> files w' !! name = files w !! name
  end.
Proof.
  destruct on_win_arg.
  - destruct (environ w !! "COMSPEC") as [comspec|] eqn:Hc.
    + rewrite (wrap_windows h w _ _ _ _ _ comspec Hc). cbn [files environ].
      split; [reflexivity|].
      exists (temp_name h (files w) (abspath h (join h prefix [".tmp"]))
                (Some ".bat")).
      intros name Hn. now rewrite lookup_insert_ne by congruence.
    + unfold wrap_subprocess_call. rewrite Hc.
      split; [reflexivity|]. exists EmptyString. reflexivity.
  - rewrite wrap_posix. cbn [files environ]. repeat split.
    + rewrite lookup_insert_eq. eauto.
    + intros name Hn. now rewrite lookup_insert_ne by congruence.
Qed.

(** X16. What a call for POSIX reads of the environment: CONDA_EXE outside
    of the development mode, and nothing in it.  With two environments that
    agree there, both calls return, the two scripts have the same text, and
    the command vectors have the same shell and flag before the name of the
    script. *)
Theorem wrap_reads_of_environment (h : host) (w : world)
    (root_prefix prefix : string) (dev_mode debug : bool)
    (arguments : list string) (environ' : gmap string string) :
  (dev_mode = false -> environ' !! "CONDA_EXE" = environ w !! "CONDA_EXE") ->
  exists script_caller command_args w1 script_caller' command_args' w2 script,
    wrap_subprocess_call h w false root_prefix prefix dev_mode debug arguments
    = (Returned (script_caller, command_args), w1) /\
    wrap_subprocess_call h (World environ' (files w)) false root_prefix prefix
      dev_mode debug arguments
    = (Returned (script_caller', command_args'), w2) /\
    files w1 !! script_caller = Some script /\
    files w2 !! script_caller' = Some script /\
    removelast command_args = removelast command_args'.
Proof.
  intros Hposix. do 7 eexists.
  split; [apply wrap_posix|]. split; [apply wrap_posix|].
  cbn [environ files].
  split; [apply lookup_insert_eq|]. split; [|reflexivity].
  rewrite lookup_insert_eq.
  destruct dev_mode; [reflexivity|]. now rewrite (Hposix eq_refl).
Qed.

Lemma wrap_reads_of_environment_witness :
  (false = false ->
   ({[ "CONDA_EXE" := "/usr/bin/conda"; "PATH" := "x" ]} : gmap string string)
     !! "CONDA_EXE"
   = environ with_overrides !! "CONDA_EXE") /\
  exists script_caller command_args w1 script_caller' command_args' w2 script,
    wrap_subprocess_call linux with_overrides false "/opt/conda"
      "/opt/conda/envs/e" false false ["ls"; "-l"]
    = (Returned (script_caller, command_args), w1) /\
    wrap_subprocess_call linux
      (World {[ "CONDA_EXE" := "/usr/bin/conda"; "PATH" := "x" ]}
             (files with_overrides))
      false "/opt/conda" "/opt/conda/envs/e" false false ["ls"; "-l"]
    = (Returned (script_caller', command_args'), w2) /\
    files w1 !! script_caller = Some script /\
    files w2 !! script_caller' = Some script /\
    removelast command_args = removelast command_args'.
Proof.
  assert (H1 : false = false ->
    ({[ "CONDA_EXE" := "/usr/bin/conda"; "PATH" := "x" ]} : gmap string string)
      !! "CONDA_EXE"
    = environ with_overrides !! "CONDA_EXE").
  { intros _. reflexivity. }
  split; [exact H1|].
  exact (wrap_reads_of_environment linux with_overrides "/opt/conda"
           "/opt/conda/envs/e" false false ["ls"; "-l"]
           {[ "CONDA_EXE" := "/usr/bin/conda"; "PATH" := "x" ]} H1).
Defined.

(** X17. An override in the environment takes the place of the root prefix:
    with CONDA_EXE set, outside of the development mode, a call for POSIX
    returns, the script holds the line that evaluates the hook of that
    executable (eval, a double quote, a dollar and a parenthesis, the
    quoted command of the executable, shell.posix and hook, a parenthesis,
    a double quote and a line feed), and with any other root prefix the
    script has the same text. *)
Theorem wrap_overrides (h : host) (w : world) (root_prefix prefix : string)
    (debug : bool) (arguments : list string)
    (conda_exe root_prefix' : string) :
  environ w !! "CONDA_EXE" = Some conda_exe ->
  exists script_caller command_args w1 script_caller' command_args' w2 script,
    wrap_subprocess_call h w false root_prefix prefix false debug arguments
    = (Returned (script_caller, command_args), w1) /\
    wrap_subprocess_call h w false root_prefix' prefix false debug arguments
    = (Returned (script_caller', command_args'), w2) /\
    files w1 !! script_caller = Some script /\
    files w2 !! script_caller' = Some script /\
    In ("eval " +:+ chr DQ +:+ "$(" +:+
        quote_for_shell h [conda_exe; "shell.posix"; "hook"] None +:+
        ")" +:+ chr DQ +:+ chr NL)
       script.
Proof.
  intros He. do 7 eexists.
  split; [apply wrap_posix|]. split; [apply wrap_posix|].
  cbn [environ files]. rewrite He. simpl default.
  split; [apply lookup_insert_eq|]. split; [apply lookup_insert_eq|].
  destruct (sh_script_shape h [conda_exe] prefix debug arguments)
    as (before & _ & Hin & ->).
  apply in_or_app. now left.
Qed.

Lemma wrap_overrides_witness :
  environ with_overrides !! "CONDA_EXE" = Some "/usr/bin/conda" /\
  (exists script_caller command_args w1 script_caller' command_args' w2 script,
      wrap_subprocess_call linux with_overrides false "/opt/conda"
        "/opt/conda/envs/e" false false ["ls"; "-l"]
      = (Returned (script_caller, command_args), w1) /\
      wrap_subprocess_call linux with_overrides false "/other"
        "/opt/conda/envs/e" false false ["ls"; "-l"]
      = (Returned (script_caller', command_args'), w2) /\
      files w1 !! script_caller = Some script /\
      files w2 !! script_caller' = Some script /\
      In ("eval " +:+ chr DQ +:+ "$(" +:+
          quote_for_shell linux ["/usr/bin/conda"; "shell.posix"; "hook"] None +:+
          ")" +:+ chr DQ +:+ chr NL)
         script) /\
  files (wrap_subprocess_call linux with_overrides false "/other"
           "/opt/conda/envs/e" false false ["ls"; "-l"]).2
    !! "/opt/conda/envs/e/.tmpk3x9q7a_"
  = Some ["eval " +:+ chr DQ +:+ "$(/usr/bin/conda shell.posix hook)" +:+
          chr DQ +:+ chr NL;
          "conda activate /opt/conda/envs/e" +:+ chr NL;
          "ls -l" +:+ chr NL].
Proof.
  assert (H3 : environ with_overrides !! "CONDA_EXE" = Some "/usr/bin/conda")
    by reflexivity.
  split; [exact H3|]. split; [|vm_compute; reflexivity].
  exact (wrap_overrides linux with_overrides "/opt/conda" "/opt/conda/envs/e"
           false ["ls"; "-l"] "/usr/bin/conda" "/other" H3).
Defined.

(** ** The script read back by the shell *)

Section ScriptWords.

Lemma words_joined_line arguments :
  forallb carried arguments = true ->
  Sh.words (str_join " " (map (fun arg => quoted_arg (quote_of arg) arg) arguments)
            +:+ chr NL)
  = Some arguments.
Proof.
  unfold Sh.words, str_join.
  induction arguments as [|x [|y arguments] IH]; intros H.
  - reflexivity.
  - simpl in H. apply andb_true_iff in H as [Hx _].
    change (String.concat " " (map _ [x])) with (quoted_arg (quote_of x) x).
    now rewrite split_quoted_arg.
  - apply andb_true_iff in H as [Hx H].
    specialize (IH H). cbn [map] in IH |- *.
    rewrite concat_cons, !append_assoc.
    rewrite split_quoted_arg by exact Hx.
    rewrite append_cons, split_space.
    change (EmptyString +:+ ?t) with t.
    now rewrite IH.
Qed.

Lemma quote_for_shell_line h arguments :
  on_win h = false ->
  forallb carried arguments = true ->
  Sh.words (quote_for_shell h arguments None +:+ chr NL) = Some arguments.
Proof.
  intros Hh Hc. rewrite quote_for_shell_not_cmd.
  - now apply words_joined_line.
  - simpl. rewrite Hh. discriminate.
Qed.

Lemma activate_line_words h prefix :
  on_win h = false ->
  carried prefix = true ->
  Sh.words (activate_line h prefix) = Some ["conda"; "activate"; prefix].
Proof.
  intros Hh Hc. unfold activate_line.
  assert (Hw : Sh.words (quote_for_shell h [prefix] None +:+ chr NL) = Some [prefix]).
  { apply quote_for_shell_line; [exact Hh|]. simpl. now rewrite Hc. }
  unfold Sh.words in *.
  change ("conda activate " +:+ ?t) with
    (quoted_arg (quote_of "conda") "conda"
     +:+ String " " (quoted_arg (quote_of "activate") "activate"
                     +:+ String " " t)).
  rewrite split_quoted_arg, split_space by reflexivity.
  rewrite split_quoted_arg, split_space by reflexivity.
  now rewrite Hw.
Qed.

Lemma activate_line_in_script h conda_exe prefix debug arguments :
  In (activate_line h prefix) (sh_script h conda_exe prefix debug arguments).
Proof.
  unfold sh_script, write, activate_line.
  destruct debug, (multiline arguments), (length arguments =? 1);
    simpl; tauto.
Qed.

End ScriptWords.

(** X18. On a POSIX host, for a prefix and for arguments that the quoting
    carries, other than one argument alone, the shell reads the script back
    as it was meant: the line that activates is the three words conda,
    activate and the prefix, and the command section is the arguments, one
    word each and in order. *)
Theorem wrap_script_read_back (h : host) (w : world)
    (root_prefix prefix : string) (dev_mode debug : bool)
    (arguments : list string) :
  on_win h = false ->
  carried prefix = true ->
  forallb carried arguments = true ->
  length arguments <> 1 ->
  exists script_caller command_args w' script command,
    wrap_subprocess_call h w false root_prefix prefix dev_mode debug arguments
    = (Returned (script_caller, command_args), w') /\
    files w' !! script_caller = Some script /\
    In (activate_line h prefix) script /\
    Sh.words (activate_line h prefix) = Some ["conda"; "activate"; prefix] /\
    command_section false script = Some command /\
    Sh.words command = Some arguments.
Proof.
  intros Hh Hp Ha Hlen.
  do 5 eexists. split; [apply wrap_posix|].
  split; [apply lookup_insert_eq|].
  split; [apply activate_line_in_script|].
  split; [now apply activate_line_words|].
  rewrite command_section_sh_script.
  assert (multiline arguments = false) as ->.
  { unfold multiline. apply Nat.eqb_neq in Hlen. now rewrite Hlen. }
  apply Nat.eqb_neq in Hlen. rewrite Hlen.
  split; [reflexivity|]. now apply quote_for_shell_line.
Qed.

Lemma wrap_script_read_back_witness :
  on_win linux = false /\
  carried "/opt/my envs/e" = true /\
  forallb carried ["python"; "-c"; "print('a b')"] = true /\
  length ["python"; "-c"; "print('a b')"] <> 1 /\
  exists script_caller command_args w' script command,
    wrap_subprocess_call linux empty_world false "/opt/conda" "/opt/my envs/e"
      false false ["python"; "-c"; "print('a b')"]
    = (Returned (script_caller, command_args), w') /\
    files w' !! script_caller = Some script /\
    In (activate_line linux "/opt/my envs/e") script /\
    Sh.words (activate_line linux "/opt/my envs/e")
    = Some ["conda"; "activate"; "/opt/my envs/e"] /\
    command_section false script = Some command /\
    Sh.words command = Some ["python"; "-c"; "print('a b')"].
Proof.
  assert (H1 : on_win linux = false) by reflexivity.
  assert (H2 : carried "/opt/my envs/e" = true) by reflexivity.
  assert (H3 : forallb carried ["python"; "-c"; "print('a b')"] = true)
    by reflexivity.
  assert (H4 : length ["python"; "-c"; "print('a b')"] <> 1) by (simpl; lia).
  split; [exact H1|]. split; [exact H2|]. split; [exact H3|]. split; [exact H4|].
  exact (wrap_script_read_back linux empty_world "/opt/conda" "/opt/my envs/e"
           false false ["python"; "-c"; "print('a b')"] H1 H2 H3 H4).
Defined.

(** X19. The debugging of the script adds lines and changes none: the
    script without it is the script with it less three texts, in the same
    order, and the command section is the same. *)
Theorem debug_only_adds_lines (h : host) (conda_exe : list string)
    (prefix : string) (arguments : list string) :
  sublist (sh_script h conda_exe prefix false arguments)
          (sh_script h conda_exe prefix true arguments) /\
  length (sh_script h conda_exe prefix true arguments)
  = length (sh_script h conda_exe prefix false arguments) + 3 /\
  command_section false (sh_script h conda_exe prefix true arguments)
  = command_section false (sh_script h conda_exe prefix false arguments).
Proof.
  split; [|split].
  - unfold sh_script, write.
    destruct (multiline arguments), (length arguments =? 1); cbn [app];
      apply sublist_cons, sublist_cons, sublist_skip, sublist_skip,
            sublist_cons, sublist_skip, sublist_nil.
  - unfold sh_script, write.
    destruct (multiline arguments), (length arguments =? 1); reflexivity.
  - now rewrite !command_section_sh_script.
Qed.

(** X20. For a POSIX shell, arguments that the quoting carries come back
    from the quoted command as they went in: the words of the result are
    the arguments.  The quoting carries an argument that holds no backslash
    and no character of code 0 and that, between single quotes, holds no
    single quote; between double quotes, no dollar, backquote or
    exclamation mark; without quotes, is not empty and holds no tab and no
    character with a meaning of its own for the shell. *)
Theorem quote_for_shell_round_trip (h : host) (arguments : list string)
    (shell : option string) :
  shell_or_default h shell <> "cmd.exe" ->
  forallb carried arguments = true ->
  Sh.words (quote_for_shell h arguments shell) = Some arguments.
Proof. apply quote_for_shell_words. Qed.

Lemma quote_for_shell_round_trip_witness :
  shell_or_default linux (Some "zsh") <> "cmd.exe" /\
  forallb carried ["echo"; "it's"; "a b"; "x" +:+ chr DQ +:+ "y"] = true /\
  Sh.words (quote_for_shell linux
              ["echo"; "it's"; "a b"; "x" +:+ chr DQ +:+ "y"] (Some "zsh"))
  = Some ["echo"; "it's"; "a b"; "x" +:+ chr DQ +:+ "y"].
Proof.
  assert (H1 : shell_or_default linux (Some "zsh") <> "cmd.exe")
    by (simpl; discriminate).
  assert (H2 : forallb carried ["echo"; "it's"; "a b"; "x" +:+ chr DQ +:+ "y"]
               = true) by reflexivity.
  split; [exact H1|]. split; [exact H2|].
  exact (quote_for_shell_round_trip linux _ (Some "zsh") H1 H2).
Defined.

Section BareArguments.

Lemma quote_of_bare arg : bare arg = true -> quote_of arg = EmptyString.
Proof.
  unfold bare, quote_of. rewrite !str_in_chr.
  change (str_in " " arg) with (str_in (chr " ") arg). rewrite str_in_chr.
  intros H.
  apply andb_true_iff in H as [H Hn]. apply andb_true_iff in H as [H Hsp].
  apply andb_true_iff in H as [Hd Hs].
  apply negb_true_iff in Hd, Hs, Hsp, Hn.
  now rewrite Hd, Hs, Hsp, Hn.
Qed.

Lemma map_quoted_bare arguments :
  forallb bare arguments = true ->
  map (fun arg => quoted_arg (quote_of arg) arg) arguments = arguments.
Proof.
  induction arguments as [|arg arguments IH]; [reflexivity|].
  simpl. intros H. apply andb_true_iff in H as [Ha H].
  now rewrite (quote_of_bare _ Ha), quoted_arg_bare, (IH H).
Qed.

End BareArguments.

(** X21. For a POSIX shell, arguments without a quote of either kind, a
    space or a line feed get no quotes: the result is the arguments joined
    by spaces, and for no argument it is the empty text. *)
Theorem quote_for_shell_bare (h : host) (arguments : list string)
    (shell : option string) :
  shell_or_default h shell <> "cmd.exe" ->
  forallb bare arguments = true ->
  quote_for_shell h arguments shell = str_join " " arguments /\
  quote_for_shell h [] shell = EmptyString.
Proof.
  intros Hsh Hb. rewrite !quote_for_shell_not_cmd by exact Hsh.
  now rewrite map_quoted_bare.
Qed.

Lemma quote_for_shell_bare_witness :
  shell_or_default linux None <> "cmd.exe" /\
  forallb bare ["ls"; "-l"; "/tmp"] = true /\
  quote_for_shell linux ["ls"; "-l"; "/tmp"] None = str_join " " ["ls"; "-l"; "/tmp"] /\
  quote_for_shell linux [] None = EmptyString.
Proof.
  assert (H1 : shell_or_default linux None <> "cmd.exe") by (simpl; discriminate).
  assert (H2 : forallb bare ["ls"; "-l"; "/tmp"] = true) by reflexivity.
  split; [exact H1|]. split; [exact H2|].
  exact (quote_for_shell_bare linux ["ls"; "-l"; "/tmp"] None H1 H2).
Defined.

(** ** Sizes for the reader *)

Section Sizes.

Local Open Scope Z_scope.

Lemma round_half_even_nearest num den :
  0 < den -> 2 * Z.abs (num - den * round_half_even num den) <= den.
Proof.
  intros Hd. unfold round_half_even.
  pose proof (Z.div_mod num den ltac:(lia)) as Hdm.
  pose proof (Z.mod_pos_bound num den Hd) as Hr.
  destruct (2 * (num mod den) <? den) eqn:H1; [apply Z.ltb_lt in H1; lia|].
  apply Z.ltb_ge in H1.
  destruct (den <? 2 * (num mod den)) eqn:H2; [apply Z.ltb_lt in H2; lia|].
  apply Z.ltb_ge in H2.
  destruct (Z.even (num / den)); lia.
Qed.

End Sizes.

(** X22. The four examples of the docstring of [human_bytes] hold. *)
Theorem human_bytes_examples :
  human_bytes 42 = Some "42 B" /\
  human_bytes 1042 = Some "1 KB" /\
  human_bytes 10004242 = Some "9.5 MB" /\
  human_bytes 100000004242 = Some "93.13 GB".
Proof. repeat split; vm_compute; reflexivity. Qed.

(** X23. From 1024 up to two to the 20 [human_bytes] gives the size in KB as
    the nearest integer to the 1024th part of the size, which lies from 1 to
    1024: the unit changes to MB at two to the 20 only, so that the top of
    the range prints 1024 KB. *)
Theorem human_bytes_kb (n : Z) :
  (1024 <= n < 1024 * 1024)%Z ->
  exists q : Z,
    human_bytes n = Some (dec q +:+ " KB") /\
    (1 <= q <= 1024)%Z /\
    (2 * Z.abs (n - 1024 * q) <= 1024)%Z /\
    ((1024 * 1024 - 512 <= n)%Z -> q = 1024%Z).
Proof.
  intros [Hlo Hhi]. exists (round_half_even n 1024).
  pose proof (round_half_even_nearest n 1024 ltac:(lia)) as Hn.
  split; [|split; [lia|split; [exact Hn|]]].
  - unfold human_bytes.
    assert ((n <? 1024)%Z = false) as -> by (apply Z.ltb_ge; lia).
    assert ((2 ^ 53 <=? n)%Z = false) as -> by (apply Z.leb_gt; lia).
    assert ((n <? 1024 * 1024)%Z = true) as -> by (apply Z.ltb_lt; lia).
    reflexivity.
  - intros Htop.
    assert (round_half_even n 1024 <= 1024)%Z by lia.
    assert (1023 <= round_half_even n 1024)%Z by lia.
    destruct (Z.eq_dec (round_half_even n 1024) 1024%Z) as [|Hne]; [assumption|].
    assert (Hq : round_half_even n 1024 = 1023%Z) by lia.
    assert (Hn' : n = (1024 * 1024 - 512)%Z) by lia.
    subst n. vm_compute in Hq. discriminate.
Qed.

Lemma human_bytes_kb_witness :
  (1024 <= 1048575 < 1024 * 1024)%Z /\
  exists q : Z,
    human_bytes 1048575 = Some (dec q +:+ " KB") /\
    (1 <= q <= 1024)%Z /\
    (2 * Z.abs (1048575 - 1024 * q) <= 1024)%Z /\
    ((1024 * 1024 - 512 <= 1048575)%Z -> q = 1024%Z).
Proof.
  assert (H : (1024 <= 1048575 < 1024 * 1024)%Z) by lia.
  split; [exact H|].
  exact (human_bytes_kb 1048575 H).
Defined.

(** ** Translating what was translated *)

Section TranslatedTwice.

Lemma has_replaced old new s :
  old <> new -> has old (str_replace old new s) = false.
Proof.
  intros Hne. induction s as [|x s IH]; [reflexivity|].
  simpl. rewrite IH, orb_false_r.
  destruct (Ascii.eqb_spec x old) as [->|Hx].
  - apply Ascii.eqb_neq. congruence.
  - now apply Ascii.eqb_neq.
Qed.

Lemma count_append c a b :
  str_count c (a +:+ b) = str_count c a + str_count c b.
Proof.
  induction a as [|x a IH]; [reflexivity|].
  rewrite append_cons. simpl. rewrite IH. lia.
Qed.

Lemma count_absent c s : has c s = false -> str_count c s = 0.
Proof.
  induction s as [|x s IH]; [reflexivity|].
  simpl. intros H. apply orb_false_iff in H as [Hx Hs].
  now rewrite Hx, (IH Hs).
Qed.

Lemma win_drive_path_no_slash item :
  drive_item item = true -> has "/" (win_drive_path item) = false.
Proof.
  intros Hi. apply andb_true_iff in Hi as [Hl _].
  unfold win_drive_path. rewrite !has_append. simpl.
  rewrite has_replaced by discriminate.
  destruct (Ascii.eqb_spec item.1 "/") as [He|]; [|reflexivity].
  rewrite He in Hl. discriminate.
Qed.

Lemma win_tail_no_slash items :
  forallb drive_item items = true ->
  has "/" (tail_join ";" (map win_drive_path items)) = false.
Proof.
  induction items as [|item items IH]; [reflexivity|].
  cbn [map tail_join forallb]. intros H. apply andb_true_iff in H as [Hi H].
  rewrite !has_append, (win_drive_path_no_slash _ Hi), (IH H). reflexivity.
Qed.

Lemma win_drive_path_one_colon item :
  drive_item item = true -> str_count ":" (win_drive_path item) = 1.
Proof.
  intros Hi. apply andb_true_iff in Hi as [Hl Hc].
  unfold win_drive_path. rewrite !count_append. simpl.
  rewrite (letter_no_colon _ Hl).
  rewrite count_absent; [reflexivity|].
  rewrite has_replace by discriminate. now apply clean_no_colon.
Qed.

Lemma win_list_already_windows item items :
  forallb drive_item (item :: items) = true ->
  already_windows
    (win_drive_path item +:+ tail_join ";" (map win_drive_path items)) = true.
Proof.
  cbn [forallb]. intros H. apply andb_true_iff in H as [Hi H].
  unfold already_windows. apply andb_true_iff. split.
  - apply Nat.ltb_lt. rewrite append_length. unfold win_drive_path.
    rewrite !append_length. simpl. lia.
  - destruct items as [|item' items].
    + simpl tail_join. rewrite append_nil_r.
      rewrite (win_drive_path_one_colon _ Hi).
      apply orb_true_iff. right. reflexivity.
    + apply orb_true_iff. left.
      rewrite str_in_semicolon, has_append. cbn [map tail_join].
      change (has ";" (";" +:+ ?t)) with true. apply orb_true_r.
Qed.

End TranslatedTwice.

(** X24. The translation of a list of drive paths is a text that
    [unix_path_to_win] leaves as it is, whatever the prefix: translating
    twice is translating once. *)
Theorem unix_path_to_win_list_fixed (root_prefix any_prefix : string)
    (items : list (ascii * string)) :
  Re.plain root_prefix = true ->
  str_in ";" root_prefix = false ->
  str_in ":" root_prefix = false ->
  forallb drive_item items = true ->
  items <> [] ->
  exists translated,
    unix_path_to_win (str_join ":" (map (unix_drive_path root_prefix) items))
                     root_prefix
    = Some (Returned translated) /\
    unix_path_to_win translated any_prefix = Some (Returned translated).
Proof.
  intros Hp Hs Hc Hi Hne.
  exists (str_join ";" (map win_drive_path items)).
  split; [now apply drive_list_translated|].
  destruct items as [|item items]; [contradiction|].
  unfold str_join. cbn [map]. rewrite concat_tail_join.
  rewrite unix_path_to_win_windows by now apply win_list_already_windows.
  rewrite str_replace_absent; [reflexivity|].
  simpl in Hi. apply andb_true_iff in Hi as [Hitem Hitems].
  now rewrite has_append, win_drive_path_no_slash, win_tail_no_slash.
Qed.

Lemma unix_path_to_win_list_fixed_witness :
  Re.plain "/cygdrive" = true /\
  str_in ";" "/cygdrive" = false /\
  str_in ":" "/cygdrive" = false /\
  forallb drive_item [("c"%char, "a b/x"); ("d"%char, EmptyString)] = true /\
  [("c"%char, "a b/x"); ("d"%char, EmptyString)] <> [] /\
  exists translated,
    unix_path_to_win
      (str_join ":" (map (unix_drive_path "/cygdrive")
                         [("c"%char, "a b/x"); ("d"%char, EmptyString)]))
      "/cygdrive"
    = Some (Returned translated) /\
    unix_path_to_win translated EmptyString = Some (Returned translated).
Proof.
  assert (H1 : Re.plain "/cygdrive" = true) by reflexivity.
  assert (H2 : str_in ";" "/cygdrive" = false) by reflexivity.
  assert (H3 : str_in ":" "/cygdrive" = false) by reflexivity.
  assert (H4 : forallb drive_item [("c"%char, "a b/x"); ("d"%char, EmptyString)]
               = true) by reflexivity.
  assert (H5 : [("c"%char, "a b/x"); ("d"%char, EmptyString)] <> [])
    by discriminate.
  split; [exact H1|]. split; [exact H2|]. split; [exact H3|].
  split; [exact H4|]. split; [exact H5|].
  exact (unix_path_to_win_list_fixed "/cygdrive" EmptyString _ H1 H2 H3 H4 H5).
Defined.

Lemma dialect_names_and_exe_witness :
  shells true !! "cygwin"
  = Some (dict unix_shell_base
            [("exe", Str "bash.exe"); ("binpath", Str "/Scripts/");
             ("path_from", Fn CygwinPathToWin); ("path_to", Fn WinPathToCygwin)]) /\
  dict unix_shell_base
    [("exe", Str "bash.exe"); ("binpath", Str "/Scripts/");
     ("path_from", Fn CygwinPathToWin); ("path_to", Fn WinPathToCygwin)] !! "exe"
  = Some (Str "bash.exe").
Proof.
  assert (H : shells true !! "cygwin"
              = Some (dict unix_shell_base
                        [("exe", Str "bash.exe"); ("binpath", Str "/Scripts/");
                         ("path_from", Fn CygwinPathToWin);
                         ("path_to", Fn WinPathToCygwin)]))
    by registry_entry.
  split; [exact H|].
  exact (proj2 (dialect_names_and_exe true "cygwin") _ H).
Defined.
